(** * Texas ISD finances: data preparation, query surface and NL engine

    A shallow embedding of [scripts/prepare_data.py], of the row-set
    endpoints of [src/api.py] and of [TexasFinanceNLPEngine.query] from
    [src/nlp_engine.py], with the properties the specification states
    about them.

    Python [str] values are lists of characters, and a character is
    a code point below 256 (the Latin-1 range of Unicode).  On this
    range the character classes are those of Python: [str.strip]
    removes the ASCII blanks, NEL (U+0085) and the no-break space
    (U+00A0); [str.isdigit] accepts the ASCII digits and the
    superscripts U+00B2, U+00B3 and U+00B9; [str.lower] maps [A-Z]
    and the accented capitals; the class [[0-9a-zA-Z]] of a regular
    expression is ASCII only.  Code points from 256 on are outside
    the model. *)

From Stdlib Require Import Strings.Ascii Strings.String QArith Qcanon.
From Stdlib Require Import Sorting.Sorted.
From stdpp Require Import gmap strings list pretty.

Local Open Scope nat_scope.

(** ** Python strings *)

Abbreviation str := (list ascii).

(** A literal: [py "abc"] is the Python string ['abc']. *)
Definition py (s : string) : str := list_ascii_of_string s.

Arguments py : simpl never.

Module PyStr.

Definition code (a : ascii) : nat := nat_of_ascii a.

Definition in_range (lo hi : nat) (a : ascii) : bool :=
  (lo <=? code a) && (code a <=? hi).

(** The whitespace [str.strip()] removes: TAB, LF, VT, FF, CR, the
    four separators FS, GS, RS, US, the space, NEL (U+0085) and the
    no-break space (U+00A0). *)
Definition is_space (a : ascii) : bool :=
  in_range 9 13 a || in_range 28 32 a || in_range 133 133 a || in_range 160 160 a.

(** The digits [0-9]. *)
Definition is_digit (a : ascii) : bool := in_range 48 57 a.

(** The superscripts two, three (U+00B2, U+00B3) and one (U+00B9). *)
Definition is_superscript (a : ascii) : bool :=
  in_range 178 179 a || in_range 185 185 a.

(** A character [str.isdigit] accepts: a decimal digit or a
    superscript digit. *)
Definition is_numeral (a : ascii) : bool := is_digit a || is_superscript a.

Definition is_upper (a : ascii) : bool := in_range 65 90 a.

Definition is_lower (a : ascii) : bool := in_range 97 122 a.

(** The class [[0-9a-zA-Z]]. *)
Definition is_alnum (a : ascii) : bool := is_digit a || is_lower a || is_upper a.

Definition is_char (c : ascii) (a : ascii) : bool := bool_decide (a = c).

Definition apostrophe : ascii := ascii_of_nat 39.
Definition underscore : ascii := ascii_of_nat 95.
Definition zero_char : ascii := ascii_of_nat 48.
Definition plus_char : ascii := ascii_of_nat 43.
Definition minus_char : ascii := ascii_of_nat 45.

(** [s.lstrip(chars)]: drop the longest prefix made of characters
    of the class. *)
Fixpoint lstrip (p : ascii → bool) (s : str) : str :=
  match s with
  | [] => []
  | a :: t => if p a then lstrip p t else s
  end.

(** [s.rstrip(chars)]: the same from the right end. *)
Definition rstrip (p : ascii → bool) (s : str) : str :=
  rev (lstrip p (rev s)).

(** [s.strip(chars)]. *)
Definition strip (p : ascii → bool) (s : str) : str :=
  rstrip p (lstrip p s).

(** [s.isdigit()]: at least one character, and every character a
    decimal digit or a superscript digit. *)
Definition isdigit (s : str) : bool :=
  match s with
  | [] => false
  | _ => forallb is_numeral s
  end.

(** [s.isdecimal()]: at least one character and all of them decimal
    digits, which are [0-9] in this range. *)
Definition isdecimal (s : str) : bool :=
  match s with
  | [] => false
  | _ => forallb is_digit s
  end.

(** [s.zfill(width)]: zeros are inserted after a leading sign. *)
Definition zfill (width : nat) (s : str) : str :=
  if width <=? length s then s
  else
    let fill := replicate (width - length s) zero_char in
    match s with
    | a :: t =>
        if is_char plus_char a || is_char minus_char a
        then a :: fill ++ t
        else fill ++ s
    | [] => fill
    end.

(** [s.lower()]: the capitals [A-Z] and the accented capitals
    U+00C0 to U+00DE (the sign U+00D7 apart) have their small letter
    32 code points further. *)
Definition lower_char (a : ascii) : ascii :=
  if is_upper a || in_range 192 214 a || in_range 216 222 a
  then ascii_of_nat (code a + 32)
  else a.

Definition lower (s : str) : str := map lower_char s.

(** [s[:n]]. *)
Definition prefix (n : nat) (s : str) : str := take n s.

(** The first, or the last, character belongs to the class. *)
Definition starts_with (p : ascii → bool) (s : str) : bool :=
  match s with
  | a :: _ => p a
  | [] => false
  end.

Definition ends_with (p : ascii → bool) (s : str) : bool :=
  starts_with p (rev s).

End PyStr.

(** ** Cells of the spreadsheet *)

(** A raw cell as pandas hands it over: a missing value ([NaN] or
    [None]), a text, or an integer.  Floating-point cells are not
    modelled. *)
Inductive cell :=
| CNA
| CStr (s : str)
| CInt (z : Z).

(** [pd.isna(x)]. *)
Definition isna (x : cell) : bool :=
  match x with CNA => true | _ => false end.

(** [str(x)]: a text is itself, an integer prints in decimal. *)
Definition str_of (x : cell) : str :=
  match x with
  | CNA => py "nan"
  | CStr s => s
  | CInt z => py (pretty z)
  end.

(** ** [clean_district_number] *)

Definition clean_district_number (x : cell) : option str :=
  if isna x then None
  else
    let s := PyStr.lstrip (PyStr.is_char PyStr.apostrophe)
               (PyStr.lstrip (PyStr.is_char PyStr.apostrophe)
                  (PyStr.strip PyStr.is_space (str_of x))) in
    let s := if PyStr.isdigit s then PyStr.zfill 6 s else s in
    Some s.

(** The value [clean_district_number] returns, as a cell again
    ([None] is a missing value for pandas). *)
Definition cell_of (r : option str) : cell :=
  match r with
  | None => CNA
  | Some s => CStr s
  end.

(** After the surrounding whitespace and the leading apostrophes,
    the text of [x] starts with whitespace. *)
Definition blank_after_quotes (x : cell) : bool :=
  PyStr.starts_with PyStr.is_space
    (PyStr.lstrip (PyStr.is_char PyStr.apostrophe)
       (PyStr.strip PyStr.is_space (str_of x))).

(** What the specification words say of district-number cleaning:
    quote characters and whitespace are stripped on both sides, and a
    purely numeric rest is padded to six digits. *)
Definition is_quote_or_space (a : ascii) : bool :=
  PyStr.is_char PyStr.apostrophe a || PyStr.is_space a.

Definition clean_district_number_spec (x : cell) : option str :=
  if isna x then None
  else
    let s := PyStr.strip is_quote_or_space (str_of x) in
    Some (if PyStr.isdigit s then PyStr.zfill 6 s else s).

(** ** [to_snake_case] *)

Module Re.

(** [re.sub(r'[^0-9a-zA-Z]+', '_', s)]: every maximal run of
    characters outside the class becomes one underscore.  The flag
    tells whether the previous character belonged to a run already
    replaced. *)
Fixpoint sub_nonalnum_from (in_run : bool) (s : str) : str :=
  match s with
  | [] => []
  | a :: t =>
      if PyStr.is_alnum a then a :: sub_nonalnum_from false t
      else if in_run then sub_nonalnum_from true t
      else PyStr.underscore :: sub_nonalnum_from true t
  end.

Definition sub_nonalnum (s : str) : str := sub_nonalnum_from false s.

(** [re.sub(r'_{2,}', '_', s)]: a run of two or more underscores
    becomes one; a single underscore does not match and stays. *)
Fixpoint sub_underscores_from (in_run : bool) (s : str) : str :=
  match s with
  | [] => []
  | a :: t =>
      if PyStr.is_char PyStr.underscore a then
        if in_run then sub_underscores_from true t
        else
          match t with
          | b :: _ =>
              if PyStr.is_char PyStr.underscore b
              then PyStr.underscore :: sub_underscores_from true t
              else a :: sub_underscores_from false t
          | [] => [a]
          end
      else a :: sub_underscores_from false t
  end.

Definition sub_underscores (s : str) : str := sub_underscores_from false s.

End Re.

Definition to_snake_case (name : str) : str :=
  let s := PyStr.lower (PyStr.strip PyStr.is_space name) in
  let s := Re.sub_nonalnum s in
  let s := PyStr.strip (PyStr.is_char PyStr.underscore) (Re.sub_underscores s) in
  PyStr.prefix 60 s.

(** Column-name canonicalization as the specification words it, for a
    maximum length [n]: lower-case, one underscore per run of
    non-alphanumeric characters, no underscore at either end, at most
    [n] characters. *)
Definition to_snake_case_spec (n : nat) (name : str) : str :=
  PyStr.prefix n
    (PyStr.strip (PyStr.is_char PyStr.underscore)
       (Re.sub_nonalnum (PyStr.lower name))).

(** ** Results of fallible steps *)

(** The ways [prepare_data] is left by an exception.  [CastError]
    stands for the exception [astype("Int16")] raises on a column it
    cannot cast, a [TypeError] or an [OverflowError]: which of the
    two depends on the values of the column (a number that is no
    whole number of the 16-bit range, an infinity) and on the
    version of pandas, and no property below tells them apart. *)
Inductive error :=
| KeyError (name : str)      (* a column the frame does not have *)
| AttributeError             (* a method the value does not have *)
| CastError                  (* a cast that cannot be done safely *)
| OutOfFuel.                 (* a loop of the model ran out of steps *)

Inductive result (A : Type) :=
| Ok (a : A)
| Err (e : error).

Arguments Ok {A} a.
Arguments Err {A} e.

#[global] Instance result_ret : MRet result := λ A a, Ok a.

#[global] Instance result_bind : MBind result := λ A B k r,
  match r with
  | Ok a => k a
  | Err e => Err e
  end.

#[global] Instance result_fmap : FMap result := λ A B f r,
  match r with
  | Ok a => Ok (f a)
  | Err e => Err e
  end.

Fixpoint traverse {A B : Type} (f : A → result B) (l : list A) : result (list B) :=
  match l with
  | [] => Ok []
  | a :: t => b ← f a; bs ← traverse f t; Ok (b :: bs)
  end.

(** ** Renaming the columns *)

(** [f"{base}_{i}"]. *)
Definition suffixed (base : str) (i : nat) : str :=
  base ++ PyStr.underscore :: py (pretty i).

(** The inner loop
    [while candidate in seen: candidate = f"{base}_{i}"; i += 1],
    run for at most [fuel] tests of the condition. *)
Fixpoint probe (seen : gset str) (base : str) (fuel : nat)
    (candidate : str) (i : nat) : option str :=
  match fuel with
  | 0 => None
  | S fuel' =>
      if bool_decide (candidate ∈ seen)
      then probe seen base fuel' (suffixed base i) (S i)
      else Some candidate
  end.

(** The first free name for [base]: [size seen + 1] tests are enough. *)
Definition fresh_name (seen : gset str) (base : str) : option str :=
  probe seen base (S (size seen)) base 1.

(** [name] is the first name free of [taken] in the sequence
    [base], [base_1], [base_2], ... *)
Definition first_free (taken : gset str) (base name : str) : Prop :=
  (name ∉ taken)
  ∧ (name = base
     ∨ ∃ i, 1 ≤ i ∧ name = suffixed base i ∧ base ∈ taken
            ∧ ∀ j, 1 ≤ j < i → suffixed base j ∈ taken).

(** The loop over [df.columns], carrying [seen] and [col_mapping]. *)
Fixpoint rename_loop (cols : list str) (seen : gset str)
    (col_mapping : gmap str str) : result (gmap str str) :=
  match cols with
  | [] => Ok col_mapping
  | col :: rest =>
      match fresh_name seen (to_snake_case col) with
      | None => Err OutOfFuel
      | Some candidate =>
          rename_loop rest ({[candidate]} ∪ seen) (<[col := candidate]> col_mapping)
      end
  end.

Definition column_mapping (cols : list str) : result (gmap str str) :=
  rename_loop cols ∅ ∅.

(** The name a column gets from [df.rename(columns=col_mapping)]. *)
Definition renamed (col_mapping : gmap str str) (col : str) : str :=
  default col (col_mapping !! col).

(** The final column names, in the order of [df.columns]. *)
Definition final_names (cols : list str) : result (list str) :=
  m ← column_mapping cols; Ok (map (renamed m) cols).

(** *** The same loop, with the set in an arbitrary layout

    A Python [set] of strings stores its elements in an order that
    depends on the hash seed of the process.  Here [seen] is the list
    of its elements in whatever order the set holds them, and
    [seen.add] may leave them in any order. *)

Inductive probes (seen : list str) (base : str) : str → nat → str → Prop :=
| probes_free candidate i :
    candidate ∉ seen →
    probes seen base candidate i candidate
| probes_taken candidate i found :
    candidate ∈ seen →
    probes seen base (suffixed base i) (S i) found →
    probes seen base candidate i found.

Inductive renames : list str → list str → gmap str str → gmap str str → Prop :=
| renames_done seen m :
    renames [] seen m m
| renames_column col rest seen seen' candidate m m' :
    probes seen (to_snake_case col) (to_snake_case col) 1 candidate →
    seen' ≡ₚ candidate :: seen →
    renames rest seen' (<[col := candidate]> m) m' →
    renames (col :: rest) seen m m'.

(** ** Data frames *)

(** A label of [df.columns].  [pd.read_excel] labels a column with
    its header cell: a text, or a number when the cell holds one (a
    label of another kind, a date for one, has no method [strip]
    either and behaves as a number does). *)
Inductive label :=
| LText (s : str)
| LNumber (z : Z).

#[global] Instance label_eq_dec : EqDecision label.
Proof. solve_decision. Defined.

(** A column of the frame [pd.read_excel] returns. *)
Record sheet_column := SheetColumn { sheet_label : label; sheet_data : list cell }.

(** The frame [pd.read_excel] returns: its columns in order.  pandas
    makes the labels distinct when it reads the sheet. *)
Abbreviation sheet := (list sheet_column).

(** A column whose label is a text. *)
Record column := Column { col_name : str; col_data : list cell }.

(** A frame all of whose labels are texts. *)
Abbreviation frame := (list column).

Definition sheet_of (df : frame) : sheet :=
  map (λ c, SheetColumn (LText (col_name c)) (col_data c)) df.

(** A float that is not [NaN]: a number, or one of the infinities
    ([pd.to_numeric] reads the text [inf] as one). *)
Inductive number :=
| Finite (q : Qc)
| Infinity (negative : bool).

Coercion Finite : Qc >-> number.

(** A column after type conversion. *)
Inductive series :=
| Object (l : list cell)              (* left as read *)
| Numeric (l : list (option number))  (* numeric, [NaN] is [None] *)
| Int16 (l : list (option Z)).        (* nullable small integer, [<NA>] is [None] *)

Record typed_column := TypedColumn { typed_name : str; typed_data : series }.

Definition series_length (s : series) : nat :=
  match s with
  | Object l => length l
  | Numeric l => length l
  | Int16 l => length l
  end.

(** [len(df)]: every column has the length of the first one. *)
Definition nrows (f : frame) : nat :=
  match f with
  | [] => 0
  | c :: _ => length (col_data c)
  end.



Definition rectangular (f : frame) : Prop :=
  ∀ c, c ∈ f → length (col_data c) = nrows f.

Definition has_column (name : str) (f : frame) : bool :=
  bool_decide (name ∈ map col_name f).

(** [df[name] = df[name].apply(g)]; a [KeyError] when the frame has
    no such column. *)
Definition apply_column (name : str) (g : cell → cell) (f : frame) : result frame :=
  if has_column name f
  then Ok (map (λ c, if bool_decide (col_name c = name)
                     then Column (col_name c) (map g (col_data c))
                     else c) f)
  else Err (KeyError name).

(** What [apply_column], called as [prepare_data] calls it, leaves
    in place of a column. *)
Definition cleaned (c : column) : column :=
  if bool_decide (col_name c = py "DISTRICT NUMBER")
  then Column (col_name c) (map (λ x, cell_of (clean_district_number x)) (col_data c))
  else c.

Definition rename_columns (col_mapping : gmap str str) (f : frame) : frame :=
  map (λ c, Column (renamed col_mapping (col_name c)) (col_data c)) f.

Section Pandas.

(** The numeral parser of [pd.to_numeric] on a value that is not
    missing: the number it reads, or [None] where
    [errors="coerce"] turns the value into [NaN]. *)
Variable parse_number : cell → option number.

(** [pd.to_numeric(_, errors="coerce")] on one cell. *)
Definition to_numeric (x : cell) : option number :=
  if isna x then None else parse_number x.

(** [nums.notna().sum()]. *)
Definition count_notna (nums : list (option number)) : nat :=
  length (filter is_Some nums).

(** [nums.notna().mean() >= 0.9]: the share of the rows of the
    column that hold a number.  The mean of an empty column is
    [NaN], which is not [>= 0.9].  On a column of [n] rows of which
    [k] hold a number the mean is the float nearest to [k/n], and
    its comparison with the float [0.9] is the exact comparison
    [9 * n <= 10 * k] for any column of fewer than [10^14] rows. *)
Definition mostly_numeric (nums : list (option number)) : bool :=
  match nums with
  | [] => false
  | _ => 9 * length nums <=? 10 * count_notna nums
  end.

(** One value of [astype("Int16")]: a missing value stays missing,
    a whole number in the 16-bit range is kept, and any other value,
    an infinity included, makes the cast of the column raise. *)
Definition int16_of (v : option number) : result (option Z) :=
  match v with
  | None => Ok None
  | Some (Finite q) =>
      let n := Qnum (this q) in
      if bool_decide (Qden (this q) = 1%positive)
         && bool_decide (-32768 ≤ n)%Z && bool_decide (n ≤ 32767)%Z
      then Ok (Some n)
      else Err CastError
  | Some (Infinity _) => Err CastError
  end.

Definition astype_int16 (nums : list (option number)) : result (list (option Z)) :=
  traverse int16_of nums.

(** The body of the loop [for col in df.columns] that converts the
    data types. *)
Definition convert_column (c : column) : result typed_column :=
  let name := col_name c in
  if bool_decide (name = py "district_number") || bool_decide (name = py "district_name")
  then Ok (TypedColumn name (Object (col_data c)))
  else if bool_decide (name = py "year")
  then
    l ← astype_int16 (map to_numeric (col_data c));
    Ok (TypedColumn name (Int16 l))
  else
    let nums := map to_numeric (col_data c) in
    if mostly_numeric nums
    then Ok (TypedColumn name (Numeric nums))
    else Ok (TypedColumn name (Object (col_data c))).

(** [prepare_data] on a frame all of whose labels are texts, from
    the frame read from the sheet to the frame it returns. *)
Definition prepare_data (df : frame) : result (list typed_column) :=
  df ← apply_column (py "DISTRICT NUMBER") (λ x, cell_of (clean_district_number x)) df;
  col_mapping ← column_mapping (map col_name df);
  traverse convert_column (rename_columns col_mapping df).

(** [name.strip()], the first call of [to_snake_case(col)], on the
    label of a column: a label that is not a text has no method
    [strip], and the call raises [AttributeError]. *)
Definition text_column (c : sheet_column) : result column :=
  match sheet_label c with
  | LText s => Ok (Column s (sheet_data c))
  | LNumber _ => Err AttributeError
  end.

(** [prepare_data] on the frame read from any sheet.
    [df["DISTRICT NUMBER"]] raises [KeyError] when no column has
    this label.  The renaming loop then calls [to_snake_case] on
    every label in turn, and raises [AttributeError] at the first
    label that is not a text.  When every label is a text, the run
    is the one of [prepare_data] above. *)
Definition prepare_sheet (sh : sheet) : result (list typed_column) :=
  if bool_decide (LText (py "DISTRICT NUMBER") ∈ map sheet_label sh)
  then df ← traverse text_column sh; prepare_data df
  else Err (KeyError (py "DISTRICT NUMBER")).

(** A column of the sheet and the column of text label it gives. *)
Definition same_column (c : sheet_column) (d : column) : Prop :=
  sheet_label c = LText (col_name d) ∧ sheet_data c = col_data d.

(** Every label of the sheet is a text. *)
Definition all_text (sh : sheet) : bool :=
  forallb (λ c, match sheet_label c with LText _ => true | LNumber _ => false end) sh.

(** A cell that [astype("Int16")] accepts once [pd.to_numeric] has
    read it. *)
Definition castable (x : cell) : bool :=
  match int16_of (to_numeric x) with
  | Ok _ => true
  | Err _ => false
  end.



(** The columns the conversion loop treats by the 90% rule. *)
Definition by_share (name : str) : bool :=
  negb (bool_decide (name = py "district_number")
        || bool_decide (name = py "district_name")
        || bool_decide (name = py "year")).

(** *** What the specification says of the 90% rule *)

(** The share is taken over the values that are not missing. *)
Definition count_present (l : list cell) : nat :=
  length (filter (λ x, isna x = false) l).

Definition count_parsed (l : list cell) : nat :=
  count_notna (map to_numeric l).

Definition is_numeric (c : typed_column) : bool :=
  match typed_data c with
  | Numeric _ => true
  | _ => false
  end.

End Pandas.

(** The number a text made of digits denotes. *)
Definition digits_value (s : str) : Z :=
  foldl (λ acc a, 10 * acc + (Z.of_nat (PyStr.code a) - 48))%Z 0%Z s.

(** A parser of whole numbers, used in the examples: an integer cell
    is its value, a text made of digits is the number it denotes,
    and any other cell does not parse.  It reads what
    [pd.to_numeric] reads on integer cells, on texts made of digits
    and on texts that are not numerals, which is all that the
    examples hold. *)
Definition parse_integer (x : cell) : option number :=
  match x with
  | CInt z => Some (Finite (Q2Qc (inject_Z z)))
  | CStr s =>
      if PyStr.isdecimal s then Some (Finite (Q2Qc (inject_Z (digits_value s)))) else None
  | CNA => None
  end.


(** *** Example frames *)

(** A column of ten texts, nine of them numerals. *)
Definition nine_of_ten : list cell :=
  replicate 9 (CStr (py "512")) ++ [CStr (py "n/a")].

(** A column of texts, half of them missing. *)
Definition half_missing : list cell :=
  [CStr (py "512"); CNA; CNA; CStr (py "731")].

Definition sheet_ok : frame :=
  [ Column (py "DISTRICT NUMBER") [CInt 57905; CStr (py "'001902"); CStr (py "x-1")];
    Column (py "DISTRICT NAME") [CStr (py "DALLAS ISD"); CStr (py "ALPINE ISD"); CNA];
    Column (py "Year") [CInt 2020; CStr (py "n/a"); CNA];
    Column (py "Total Revenue") [CInt 5; CInt 6; CInt 7];
    Column (py "TOTAL  REVENUE") [CStr (py "a"); CInt 6; CNA] ].




(** A sheet with a header cell that holds the number 2024. *)
Definition sheet_with_number_label : sheet :=
  [ SheetColumn (LText (py "DISTRICT NUMBER")) [CInt 57905; CInt 1902];
    SheetColumn (LNumber 2024) [CInt 5; CInt 6] ].

(** Two columns with the same canonical name, and the frame
    [prepare_data] returns for them. *)
Definition sheet_pair : frame :=
  [ Column (py "DISTRICT NUMBER") [CInt 57905];
    Column (py "Total Revenue") [CInt 5];
    Column (py "TOTAL REVENUE") [CStr (py "n/a")] ].

Definition sheet_pair_prepared : list typed_column :=
  [ TypedColumn (py "district_number") (Object [CStr (py "057905")]);
    TypedColumn (py "total_revenue") (Numeric [Some (Finite (Q2Qc (inject_Z 5)))]);
    TypedColumn (py "total_revenue_1") (Object [CStr (py "n/a")]) ].

(** ** Metric derivation *)

(** Modelled from the spec: the record of one district and year, with
    the fields of section 3 of the specification; the sources hold
    no such record. *)
Record FinancialRecord := {
  district_number : str;
  district_name : str;
  year : Z;
  total_revenue : option Qc;
  total_spend : option Qc;
  instruction_spend : option Qc;
  debt_service : option Qc;
  capital_projects : option Qc;
  enrollment : option N
}.

(** Modelled from the spec: the two per-student metrics. *)
Record DerivedMetrics := {
  spend_per_student : option Qc;
  revenue_per_student : option Qc
}.

(** A division that faults on a zero denominator. *)
Inductive fault := DivisionByZero.

Definition divide (a b : Qc) : fault + Qc :=
  if bool_decide (b = 0%Qc) then inl DivisionByZero else inr (a / b)%Qc.

(** Modelled from the spec: the derivation of the per-student metrics
    is not part of the sources (they only read the columns
    [spend_per_student] and [revenue_per_student] of a view).  A
    metric is its total divided by the enrollment, and is null when
    the enrollment is null or zero, or when the total is null. *)
Definition per_student (total : option Qc) (enrolled : option N) : fault + option Qc :=
  match enrolled with
  | None => inr None
  | Some 0%N => inr None
  | Some n =>
      match total with
      | None => inr None
      | Some t =>
          match divide t (Q2Qc (inject_Z (Z.of_N n))) with
          | inl f => inl f
          | inr q => inr (Some q)
          end
      end
  end.

(** Modelled from the spec: both metrics of a record, computed from
    its totals and its enrollment; the sources do not hold this
    function. *)
Definition derive_metrics (r : FinancialRecord) : fault + DerivedMetrics :=
  match per_student (total_spend r) (enrollment r),
        per_student (total_revenue r) (enrollment r) with
  | inr s, inr v => inr {| spend_per_student := s; revenue_per_student := v |}
  | inl f, _ => inl f
  | _, inl f => inl f
  end.

(** ** The query surface *)

(** A row of the view [v_finance_summary]; a column of the view may
    be null. *)
Record finance_row := {
  fr_district_number : str;
  fr_district_name : str;
  fr_year : option Z;
  fr_total_revenue : option Qc;
  fr_total_spend : option Qc;
  fr_enrollment : option Z;
  fr_spend_per_student : option Qc;
  fr_revenue_per_student : option Qc
}.

(** A row of the view [v_anomaly_flags]. *)
Record anomaly_row := {
  ar_summary : finance_row;
  revenue_drop_flag : option bool;
  spend_spike_flag : option bool;
  per_student_spike_flag : option bool;
  enrollment_decline_flag : option bool
}.

Record database := {
  v_finance_summary : list finance_row;
  v_anomaly_flags : list anomaly_row
}.

(** The values the parameter [flag_type] is declared to take
    ([enum=[...]]); a request with any other text is not modelled. *)
Inductive flag_type :=
| revenue_drop
| spend_spike
| per_student_spike
| enrollment_decline.

(** The column [f"{flag_type}_flag"]. *)
Definition flag_column (t : flag_type) (r : anomaly_row) : option bool :=
  match t with
  | revenue_drop => revenue_drop_flag r
  | spend_spike => spend_spike_flag r
  | per_student_spike => per_student_spike_flag r
  | enrollment_decline => enrollment_decline_flag r
  end.

Inductive response (A : Type) :=
| Rows (rows : list A)        (* 200, the rows as a list of objects *)
| NotFound                    (* 404 *)
| Unprocessable.              (* 422, a query parameter failed validation *)

Arguments Rows {A} rows.
Arguments NotFound {A}.
Arguments Unprocessable {A}.

(** [Query(..., ge=lo, le=hi)] on a value that was given. *)
Definition in_bounds (lo hi v : Z) : bool :=
  bool_decide (lo ≤ v)%Z && bool_decide (v ≤ hi)%Z.

(** [limit: int = Query(100, ge=1, le=500)]: the default when the
    parameter is absent, [None] when validation fails. *)
Definition limit_param (given : option Z) : option Z :=
  match given with
  | None => Some 100%Z
  | Some v => if in_bounds 1 500 v then Some v else None
  end.

(** [Optional[int] = Query(None, ge=2008, le=2024)]. *)
Definition year_param (given : option Z) : option (option Z) :=
  match given with
  | None => Some None
  | Some v => if in_bounds 2008 2024 v then Some (Some v) else None
  end.

(** SQL connectives on nullable booleans. *)
Definition sql_or (a b : option bool) : option bool :=
  match a, b with
  | Some true, _ | _, Some true => Some true
  | Some false, Some false => Some false
  | _, _ => None
  end.

Definition sql_and (a b : option bool) : option bool :=
  match a, b with
  | Some false, _ | _, Some false => Some false
  | Some true, Some true => Some true
  | _, _ => None
  end.

(** A [WHERE] clause keeps the rows on which the condition is true. *)
Definition is_true (a : option bool) : bool :=
  match a with
  | Some true => true
  | _ => false
  end.

Definition sql_eq_int (a : option Z) (v : Z) : option bool :=
  (λ x, bool_decide (x = v)) <$> a.

Definition sql_ge_int (a : option Z) (v : Z) : option bool :=
  (λ x, bool_decide (v ≤ x)%Z) <$> a.

Definition sql_le_int (a : option Z) (v : Z) : option bool :=
  (λ x, bool_decide (x ≤ v)%Z) <$> a.

(** [ORDER BY]: the rows sorted for the order [le].  The database
    may return rows that the order does not tell apart in any order;
    the insertion sort here returns them in one of these orders, and
    no property below depends on which. *)
Fixpoint insert_by {A : Type} (le : A → A → bool) (x : A) (l : list A) : list A :=
  match l with
  | [] => [x]
  | y :: t => if le x y then x :: l else y :: insert_by le x t
  end.

Definition order_by {A : Type} (le : A → A → bool) (l : list A) : list A :=
  foldr (insert_by le) [] l.

(** [LIMIT n]. *)
Definition sql_limit {A : Type} (n : Z) (l : list A) : list A :=
  take (Z.to_nat n) l.

Section QuerySurface.

(** The database's pattern match [name ILIKE pattern] and the
    collation it orders texts by. *)
Variable ilike : str → str → bool.
Variable collate_le : str → str → bool.

Definition percent : ascii := ascii_of_nat 37.

(** [GET /districts]. *)
Definition list_districts (db : database) (search : option str)
    (limit : option Z) : response (str * str) :=
  match limit_param limit with
  | None => Unprocessable
  | Some limit =>
      let selected :=
        match search with
        | Some (a :: t) =>
            filter (λ r, ilike (fr_district_name r) (percent :: (a :: t) ++ [percent]) = true)
              (v_finance_summary db)
        | _ => v_finance_summary db
        end in
      let pairs := remove_dups (map (λ r, (fr_district_number r, fr_district_name r)) selected) in
      Rows (sql_limit limit (order_by (λ x y, collate_le x.2 y.2) pairs))
  end.

(** [ORDER BY year]: nulls come last in ascending order. *)
Definition year_le (a b : option Z) : bool :=
  match a, b with
  | Some x, Some y => bool_decide (x ≤ y)%Z
  | Some _, None => true
  | None, Some _ => false
  | None, None => true
  end.

(** [GET /district/{district_number}/summary]. *)
Definition get_district_summary (db : database) (number : str)
    (start_year end_year : option Z) : response finance_row :=
  match year_param start_year, year_param end_year with
  | Some start_year, Some end_year =>
      let year_ok (r : finance_row) : option bool :=
        match start_year, end_year with
        | Some s, Some e => sql_and (sql_ge_int (fr_year r) s) (sql_le_int (fr_year r) e)
        | Some s, None => sql_ge_int (fr_year r) s
        | None, Some e => sql_le_int (fr_year r) e
        | None, None => Some true
        end in
      let rows :=
        order_by (λ x y, year_le (fr_year x) (fr_year y))
          (filter (λ r, is_true (sql_and (Some (bool_decide (fr_district_number r = number)))
                                   (year_ok r)) = true)
             (v_finance_summary db)) in
      match rows with
      | [] => NotFound
      | _ => Rows rows
      end
  | _, _ => Unprocessable
  end.

(** [ORDER BY year DESC, district_name]: nulls come first in
    descending order. *)
Definition anomaly_le (x y : anomaly_row) : bool :=
  let yx := fr_year (ar_summary x) in
  let yy := fr_year (ar_summary y) in
  if bool_decide (yx = yy)
  then collate_le (fr_district_name (ar_summary x)) (fr_district_name (ar_summary y))
  else year_le yy yx.

(** The conditions of the dynamic [WHERE] clause of [get_anomalies]. *)
Definition anomaly_conditions (year : option Z) (flag : option flag_type)
    : list (anomaly_row → option bool) :=
  let conditions :=
    match year with
    | Some y => [λ r, sql_eq_int (fr_year (ar_summary r)) y]
    | None => []
    end
    ++
    match flag with
    | Some t => [λ r, (λ b, bool_decide (b = true)) <$> flag_column t r]
    | None => []
    end in
  match conditions with
  | [] =>
      [λ r, sql_or (sql_or (sql_or (revenue_drop_flag r) (spend_spike_flag r))
                      (per_student_spike_flag r)) (enrollment_decline_flag r)]
  | _ => conditions
  end.

(** [" AND ".join(conditions)]. *)
Definition all_conditions (conditions : list (anomaly_row → option bool))
    (r : anomaly_row) : option bool :=
  match conditions with
  | [] => Some true
  | c :: rest => foldl (λ acc d, sql_and acc (d r)) (c r) rest
  end.

(** [GET /anomalies]. *)
Definition get_anomalies (db : database) (year : option Z)
    (flag : option flag_type) (limit : option Z) : response anomaly_row :=
  match year_param year, limit_param limit with
  | Some year, Some limit =>
      let conditions := anomaly_conditions year flag in
      Rows (sql_limit limit
              (order_by anomaly_le
                 (filter (λ r, is_true (all_conditions conditions r) = true)
                    (v_anomaly_flags db))))
  | _, _ => Unprocessable
  end.

End QuerySurface.

(** *** An example database *)

Definition dallas_2020 : finance_row := {|
  fr_district_number := py "057905";
  fr_district_name := py "DALLAS ISD";
  fr_year := Some 2020%Z;
  fr_total_revenue := None;
  fr_total_spend := None;
  fr_enrollment := None;
  fr_spend_per_student := None;
  fr_revenue_per_student := None
|}.

(** The summary view with 501 rows of one district (the import
    appends to the table, so a sheet imported again repeats its
    rows). *)
Definition crowded_db : database := {|
  v_finance_summary := replicate 501 dallas_2020;
  v_anomaly_flags := []
|}.

(** ** The natural-language engine *)

(** A Python value, as far as the dicts of [query] hold one. *)
Inductive value :=
| VNone
| VBool (b : bool)
| VInt (z : Z)
| VStr (s : str).

(** The class of an exception: a class that derives from
    [Exception], or a class that derives from [BaseException] only,
    which the three built-in ones and any class a program derives
    from [BaseException] itself are. *)
Inductive exception_class :=
| ExceptionSubclass (name : str)
| KeyboardInterrupt
| SystemExit
| GeneratorExit
| BaseExceptionSubclass (name : str).

(** [isinstance(e, Exception)], what an [except Exception] handler
    tests. *)
Definition is_Exception (cls : exception_class) : bool :=
  match cls with
  | ExceptionSubclass _ => true
  | KeyboardInterrupt | SystemExit | GeneratorExit | BaseExceptionSubclass _ => false
  end.

(** An exception: its class and the text [str(e)] gives. *)
Inductive exception := PyException (cls : exception_class) (text : str).

(** A Python call either returns or raises. *)
Inductive outcome (A : Type) :=
| Returns (a : A)
| Raises (e : exception).

Arguments Returns {A} a.
Arguments Raises {A} e.

Section NLPEngine.

(** [self.agent.invoke]: from the input dict to the dict the agent
    returns, or to the exception it raises. *)
Variable agent_invoke : gmap str value → outcome (gmap str value).

(** [f"{question}\nPlease limit results to 100 rows maximum."]. *)
Definition safe_question (question : str) : str :=
  question ++ ascii_of_nat 10 :: py "Please limit results to 100 rows maximum.".

(** The [try] block of [query]. *)
Definition query_body (question : str) : outcome (gmap str value) :=
  match agent_invoke {[ py "input" := VStr (safe_question question) ]} with
  | Raises e => Raises e
  | Returns result =>
      let output := default (VStr (py "No result returned")) (result !! py "output") in
      Returns (<[ py "success" := VBool true ]>
                 (<[ py "answer" := output ]>
                    {[ py "question" := VStr question ]}))
  end.

(** [TexasFinanceNLPEngine.query]: the [try] block under its
    [except Exception as e] handler, which lets through an exception
    that is no instance of [Exception]. *)
Definition query (question : str) : outcome (gmap str value) :=
  match query_body question with
  | Returns d => Returns d
  | Raises (PyException cls text) =>
      if is_Exception cls
      then Returns (<[ py "success" := VBool false ]>
                      (<[ py "error" := VStr text ]>
                         {[ py "question" := VStr question ]}))
      else Raises (PyException cls text)
  end.

End NLPEngine.



(** ** Shapes of canonical names *)

(** Two underscores next to each other somewhere in the string. *)
Fixpoint adjacent_underscores (s : str) : bool :=
  match s with
  | a :: (b :: _) as t =>
      PyStr.is_char PyStr.underscore a && PyStr.is_char PyStr.underscore b
      || adjacent_underscores t
  | _ => false
  end.

(** A string without any character of the class [[0-9a-zA-Z]]. *)
Definition no_alnum (s : str) : bool :=
  forallb (λ a, negb (PyStr.is_alnum a)) s.

(** ** The data dictionary *)

(** A value of a typed column that is not null. *)
Inductive scalar :=
| SCell (x : cell)
| SNumber (q : number)
| SInt16 (z : Z).

(** The values of a column, a null one as [None]. *)
Definition series_values (s : series) : list (option scalar) :=
  match s with
  | Object l => map (λ x, if isna x then None else Some (SCell x)) l
  | Numeric l => map (fmap SNumber) l
  | Int16 l => map (fmap SInt16) l
  end.

(** [df[col].notna()]. *)
Definition notna (s : series) : list bool :=
  map (λ v, match v with Some _ => true | None => false end) (series_values s).

(** [df[col].dropna()]. *)
Definition dropna (s : series) : list scalar :=
  omap id (series_values s).

(** [_.iloc[0]]: [None] stands for the [IndexError] of an empty
    series. *)
Definition iloc0 {A : Type} (l : list A) : option A := head l.

(** [df[col].dropna().iloc[0] if df[col].notna().any() else None]:
    the outer [None] is an [IndexError]. *)
Definition sample_value (s : series) : option (option scalar) :=
  if existsb id (notna s)
  then Some <$> iloc0 (dropna s)
  else Some None.

(** [df[col].notna().sum()] and [df[col].isna().sum()]. *)
Definition non_null_count (s : series) : nat :=
  length (filter (λ b, b = true) (notna s)).

Definition null_count (s : series) : nat :=
  length (filter (λ b, b = false) (notna s)).

Record dictionary_row := {
  dict_column_name : str;
  dict_data_type : str;
  dict_sample_value : option scalar;
  dict_non_null_count : nat;
  dict_null_count : nat
}.

Section DataDictionary.

(** [str(df[col].dtype)]: the name of the dtype pandas holds the
    column in. *)
Variable dtype_name : series → str.

(** The rows of [data_dict]; [None] when building it raises. *)
Definition data_dictionary (df : list typed_column) : option (list dictionary_row) :=
  mapM (λ c,
          v ← sample_value (typed_data c);
          Some {| dict_column_name := typed_name c;
                  dict_data_type := dtype_name (typed_data c);
                  dict_sample_value := v;
                  dict_non_null_count := non_null_count (typed_data c);
                  dict_null_count := null_count (typed_data c) |}) df.

End DataDictionary.

(** ** The requests in plain terms *)

(** The year [y] of a row answers a request for the years from [lo]
    to [hi]; with a bound given, a row without a year does not. *)
Definition year_in_range (lo hi : option Z) (y : option Z) : bool :=
  match lo, hi with
  | None, None => true
  | _, _ =>
      match y with
      | Some v =>
          from_option (λ s, bool_decide (s ≤ v)%Z) true lo
          && from_option (λ e, bool_decide (v ≤ e)%Z) true hi
      | None => false
      end
  end.

Definition summary_match (number : str) (lo hi : option Z) (r : finance_row) : bool :=
  bool_decide (fr_district_number r = number) && year_in_range lo hi (fr_year r).

(** A row with at least one flag raised. *)
Definition flagged (r : anomaly_row) : bool :=
  bool_decide (revenue_drop_flag r = Some true)
  || bool_decide (spend_spike_flag r = Some true)
  || bool_decide (per_student_spike_flag r = Some true)
  || bool_decide (enrollment_decline_flag r = Some true).

(** A row answers a request for anomalies: it has the year and the
    flag asked for, or any flag when nothing is asked for. *)
Definition anomaly_match (year : option Z) (flag : option flag_type)
    (r : anomaly_row) : bool :=
  match year, flag with
  | None, None => flagged r
  | _, _ =>
      from_option (λ y, bool_decide (fr_year (ar_summary r) = Some y)) true year
      && from_option (λ t, bool_decide (flag_column t r = Some true)) true flag
  end.

(** The rows a search asks for: those whose name the database
    matches against [%search%], all of them without a search text. *)
Definition search_match (ilike : str → str → bool) (search : option str)
    (r : finance_row) : Prop :=
  match search with
  | Some (a :: t) => ilike (fr_district_name r) (percent :: (a :: t) ++ [percent]) = true
  | _ => True
  end.

(** *** A database with anomalies *)

Definition summary_of (name : str) (year : option Z) : finance_row := {|
  fr_district_number := py "000001";
  fr_district_name := name;
  fr_year := year;
  fr_total_revenue := None;
  fr_total_spend := None;
  fr_enrollment := None;
  fr_spend_per_student := None;
  fr_revenue_per_student := None
|}.

Definition anomaly_of (name : str) (year : option Z) (drop spike : option bool)
    : anomaly_row := {|
  ar_summary := summary_of name year;
  revenue_drop_flag := drop;
  spend_spike_flag := spike;
  per_student_spike_flag := Some false;
  enrollment_decline_flag := None
|}.

Definition flagged_db : database := {|
  v_finance_summary := [];
  v_anomaly_flags :=
    [ anomaly_of (py "B ISD") (Some 2019%Z) (Some true) (Some false);
      anomaly_of (py "C ISD") (Some 2021%Z) (Some false) None;
      anomaly_of (py "A ISD") (Some 2021%Z) None (Some true);
      anomaly_of (py "D ISD") (Some 2021%Z) (Some true) (Some true);
      anomaly_of (py "E ISD") None (Some true) None ]
|}.

(** The flagged rows of [flagged_db], latest year first. *)
Definition flagged_db_anomalies : list anomaly_row :=
  [ anomaly_of (py "E ISD") None (Some true) None;
    anomaly_of (py "A ISD") (Some 2021%Z) None (Some true);
    anomaly_of (py "D ISD") (Some 2021%Z) (Some true) (Some true);
    anomaly_of (py "B ISD") (Some 2019%Z) (Some true) (Some false) ].

(** *** A sheet whose canonical names do not collide *)

Definition sheet_plain : frame :=
  [ Column (py "DISTRICT NUMBER") [CInt 57905; CStr (py "'001902")];
    Column (py "DISTRICT NAME") [CStr (py "DALLAS ISD"); CStr (py "ALPINE ISD")];
    Column (py "Year") [CInt 2020; CStr (py "n/a")];
    Column (py "Total Revenue") [CInt 5; CInt 6] ].

Definition sheet_plain_prepared : list typed_column :=
  [ TypedColumn (py "district_number") (Object [CStr (py "057905"); CStr (py "001902")]);
    TypedColumn (py "district_name")
      (Object [CStr (py "DALLAS ISD"); CStr (py "ALPINE ISD")]);
    TypedColumn (py "year") (Int16 [Some 2020%Z; None]);
    TypedColumn (py "total_revenue")
      (Numeric [Some (Finite (Q2Qc (inject_Z 5))); Some (Finite (Q2Qc (inject_Z 6)))]) ].

(** ** The SQL text of the dynamic queries *)

Inductive sql_value :=
| SqlText (s : str)
| SqlInt (z : Z)
| SqlBool (b : bool).

(** [sep.join(parts)]. *)
Fixpoint join (sep : str) (parts : list str) : str :=
  match parts with
  | [] => []
  | [p] => p
  | p :: rest => p ++ sep ++ join sep rest
  end.

(** The text of the value [flag_type]. *)
Definition flag_name (t : flag_type) : str :=
  match t with
  | revenue_drop => py "revenue_drop"
  | spend_spike => py "spend_spike"
  | per_student_spike => py "per_student_spike"
  | enrollment_decline => py "enrollment_decline"
  end.

(** The query and the parameters [get_anomalies] passes to
    [conn.fetch], for a request that passed validation. *)
Definition anomalies_query (year : option Z) (flag : option flag_type) (limit : Z)
    : str * list sql_value :=
  let query := py "SELECT * FROM v_anomaly_flags WHERE " in
  let conditions : list str := [] in
  let params : list sql_value := [] in
  let param_count := 0 in
  let '(conditions, params, param_count) :=
    match year with
    | Some y =>
        let param_count := param_count + 1 in
        (conditions ++ [py "year = $" ++ py (pretty param_count)],
         params ++ [SqlInt y], param_count)
    | None => (conditions, params, param_count)
    end in
  let '(conditions, params, param_count) :=
    match flag with
    | Some t =>
        let param_count := param_count + 1 in
        let flag_column := flag_name t ++ py "_flag" in
        (conditions ++ [flag_column ++ py " = $" ++ py (pretty param_count)],
         params ++ [SqlBool true], param_count)
    | None => (conditions, params, param_count)
    end in
  let conditions :=
    match conditions with
    | [] => [py "(revenue_drop_flag OR spend_spike_flag OR per_student_spike_flag OR enrollment_decline_flag)"]
    | _ => conditions
    end in
  let query := query ++ join (py " AND ") conditions in
  let query :=
    query ++ py " ORDER BY year DESC, district_name LIMIT $"
          ++ py (pretty (param_count + 1)) in
  (query, params ++ [SqlInt limit]).

Definition newline : ascii := ascii_of_nat 10.

(** The query and the parameters [get_district_summary] passes to
    [conn.fetch], for a request that passed validation. *)
Definition summary_query (number : str) (start_year end_year : option Z)
    : str * list sql_value :=
  let query :=
    newline :: py "            SELECT * FROM v_finance_summary "
    ++ newline :: py "            WHERE district_number = $1"
    ++ newline :: py "        " in
  let params := [SqlText number] in
  let '(query, params) :=
    match start_year, end_year with
    | Some s, Some e =>
        (query ++ py " AND year BETWEEN $2 AND $3", params ++ [SqlInt s; SqlInt e])
    | Some s, None => (query ++ py " AND year >= $2", params ++ [SqlInt s])
    | None, Some e => (query ++ py " AND year <= $2", params ++ [SqlInt e])
    | None, None => (query, params)
    end in
  (query ++ py " ORDER BY year", params).

(** The numbers of the placeholders [$n] of a query text, in the
    order they occur.  [reading] holds the digits read since the
    last [$]. *)
Definition dollar : ascii := ascii_of_nat 36.

Definition close_placeholder (reading : option str) : list nat :=
  match reading with
  | Some (a :: t) => [Z.to_nat (digits_value (a :: t))]
  | _ => []
  end.

Fixpoint placeholders_from (reading : option str) (s : str) : list nat :=
  match s with
  | [] => close_placeholder reading
  | a :: t =>
      match reading with
      | Some d =>
          if PyStr.is_digit a then placeholders_from (Some (d ++ [a])) t
          else close_placeholder reading
               ++ placeholders_from (if bool_decide (a = dollar) then Some [] else None) t
      | None =>
          placeholders_from (if bool_decide (a = dollar) then Some [] else None) t
      end
  end.

Definition placeholders (s : str) : list nat := placeholders_from None s.

(** A collation that is a total order on texts: character by
    character, by character code. *)
Fixpoint chars_le (s t : str) : bool :=
  match s, t with
  | [], _ => true
  | _ :: _, [] => false
  | a :: s', b :: t' =>
      if bool_decide (a = b) then chars_le s' t'
      else PyStr.code a <=? PyStr.code b
  end.

(** * Properties *)

(** ** Stripping *)

Module PyStrFacts.
Import PyStr.

Lemma lstrip_id p s : starts_with p s = false → lstrip p s = s.
Proof. destruct s as [|a t]; simpl; [done|]. by intros ->. Qed.

Lemma lstrip_starts p s : starts_with p (lstrip p s) = false.
Proof.
  induction s as [|a t IH]; simpl; [done|].
  destruct (p a) eqn:E; [done|]. simpl. by rewrite E.
Qed.

Lemma lstrip_idemp p s : lstrip p (lstrip p s) = lstrip p s.
Proof. apply lstrip_id, lstrip_starts. Qed.

(** What [lstrip] removes is a prefix made of the class. *)
Lemma lstrip_split p s : ∃ l, s = l ++ lstrip p s ∧ forallb p l = true.
Proof.
  induction s as [|a t (l & Hl & Hp)]; simpl.
  - by exists [].
  - destruct (p a) eqn:E.
    + exists (a :: l). simpl. rewrite E, Hp. split; [by f_equal|done].
    + by exists [].
Qed.

Lemma lstrip_all p s : forallb p s = true → lstrip p s = [].
Proof.
  induction s as [|a t IH]; simpl; [done|].
  intros [-> H]%andb_prop. auto.
Qed.

Lemma lstrip_app_all p l s : forallb p l = true → lstrip p (l ++ s) = lstrip p s.
Proof.
  induction l as [|a t IH]; simpl; [done|].
  intros [-> H]%andb_prop. auto.
Qed.

Lemma rstrip_id p s : ends_with p s = false → rstrip p s = s.
Proof.
  unfold ends_with, rstrip. intros H. rewrite lstrip_id by done.
  apply rev_involutive.
Qed.

Lemma rstrip_ends p s : ends_with p (rstrip p s) = false.
Proof.
  unfold ends_with, rstrip. rewrite rev_involutive. apply lstrip_starts.
Qed.

(** What [rstrip] removes is a suffix made of the class. *)
Lemma rstrip_split p s : ∃ r, s = rstrip p s ++ r ∧ forallb p r = true.
Proof.
  unfold rstrip. destruct (lstrip_split p (rev s)) as (l & Hl & Hp).
  exists (rev l). split.
  - rewrite <- rev_app_distr, <- Hl. by rewrite rev_involutive.
  - rewrite forallb_forall in *. intros a Ha. apply Hp. by apply in_rev.
Qed.

Lemma starts_with_app p s t : s ≠ [] → starts_with p (s ++ t) = starts_with p s.
Proof. by destruct s. Qed.

Lemma ends_with_app p s t : t ≠ [] → ends_with p (s ++ t) = ends_with p t.
Proof.
  intros H. unfold ends_with. rewrite rev_app_distr.
  apply starts_with_app. intros E. apply H.
  by rewrite <- (rev_involutive t), E.
Qed.

Lemma rstrip_starts p s : starts_with p s = false → starts_with p (rstrip p s) = false.
Proof.
  intros H. destruct (rstrip_split p s) as (r & Hr & _).
  destruct (rstrip p s) as [|a t] eqn:E; [done|].
  rewrite Hr in H. exact H.
Qed.

Lemma lstrip_ends p q s : ends_with p s = false → ends_with p (lstrip q s) = false.
Proof.
  intros H. destruct (lstrip_split q s) as (l & Hl & _).
  destruct (lstrip q s) as [|a t] eqn:E; [done|].
  rewrite Hl in H. by rewrite ends_with_app in H.
Qed.

Lemma strip_starts p s : starts_with p (strip p s) = false.
Proof. apply rstrip_starts, lstrip_starts. Qed.

Lemma strip_ends p s : ends_with p (strip p s) = false.
Proof. apply rstrip_ends. Qed.

Lemma strip_id p s :
  starts_with p s = false → ends_with p s = false → strip p s = s.
Proof.
  intros H1 H2. unfold strip. rewrite lstrip_id by done. by apply rstrip_id.
Qed.

(** [strip] keeps the middle of the string: what it removes on
    either side belongs to the class, and what it keeps neither
    starts nor ends with a character of the class. *)
Lemma strip_split p s :
  ∃ l r, s = l ++ strip p s ++ r
         ∧ forallb p l = true ∧ forallb p r = true
         ∧ starts_with p (strip p s) = false
         ∧ ends_with p (strip p s) = false.
Proof.
  destruct (lstrip_split p s) as (l & Hl & Hpl).
  destruct (rstrip_split p (lstrip p s)) as (r & Hr & Hpr).
  exists l, r. split_and!; auto using strip_starts, strip_ends.
  unfold strip. by rewrite <- Hr.
Qed.

(** *** Digits and padding *)

(** A fact about one character, checked on the 256 characters. *)
Ltac by_char a := destruct a as [[] [] [] [] [] [] [] []]; vm_compute; intuition congruence.

Lemma isdigit_forallb s : isdigit s = true → forallb is_numeral s = true.
Proof. by destruct s. Qed.

Lemma isdigit_nonempty s : isdigit s = true → s ≠ [].
Proof. by destruct s. Qed.

Lemma digit_numeral a : is_digit a = true → is_numeral a = true.
Proof. unfold is_numeral. by intros ->. Qed.

(** A text of decimal digits is a text [isdigit] accepts. *)
Lemma isdecimal_isdigit s : isdecimal s = true → isdigit s = true.
Proof.
  destruct s as [|a t]; [done|]. unfold isdecimal, isdigit.
  rewrite !forallb_forall. intros H b Hb. by apply digit_numeral, H.
Qed.

Lemma digit_not_sign a :
  is_numeral a = true → is_char plus_char a || is_char minus_char a = false.
Proof. by_char a. Qed.

Lemma digit_not_space a : is_numeral a = true → is_space a = false.
Proof. by_char a. Qed.

Lemma digit_not_apostrophe a : is_numeral a = true → is_char apostrophe a = false.
Proof. by_char a. Qed.

Lemma zfill_digits n s :
  isdigit s = true →
  zfill n s = replicate (n - length s) zero_char ++ s.
Proof.
  intros H. unfold zfill. destruct (n <=? length s) eqn:E.
  - apply Nat.leb_le in E. by replace (n - length s) with 0 by lia.
  - destruct s as [|a t]; [done|].
    simpl in H. apply andb_prop in H as [Ha _].
    by rewrite (digit_not_sign a Ha).
Qed.

Lemma zfill_long n s : n ≤ length s → zfill n s = s.
Proof. intros H. unfold zfill. by rewrite (proj2 (Nat.leb_le _ _) H). Qed.

Lemma zfill_length n s : isdigit s = true → length (zfill n s) = n `max` length s.
Proof.
  intros H. rewrite zfill_digits by done.
  rewrite length_app, length_replicate. lia.
Qed.

Lemma zfill_isdigit n s : isdigit s = true → isdigit (zfill n s) = true.
Proof.
  intros H. rewrite zfill_digits by done.
  pose proof (isdigit_nonempty _ H) as Hne.
  assert (forallb is_numeral (replicate (n - length s) zero_char ++ s) = true) as Hall.
  { rewrite forallb_app, (isdigit_forallb _ H), andb_true_r.
    apply forallb_forall. intros a Ha%list_elem_of_In%elem_of_replicate.
    destruct Ha as [-> _]. done. }
  destruct (replicate (n - length s) zero_char ++ s) eqn:E; [|done].
  apply app_eq_nil in E as [_ ?]. done.
Qed.

Lemma digits_start p s :
  (∀ a, is_numeral a = true → p a = false) →
  forallb is_numeral s = true → starts_with p s = false.
Proof.
  intros Hp H. destruct s as [|a t]; [done|].
  simpl in *. apply andb_prop in H as [Ha _]. auto.
Qed.

Lemma digits_end p s :
  (∀ a, is_numeral a = true → p a = false) →
  forallb is_numeral s = true → ends_with p s = false.
Proof.
  intros Hp H. apply digits_start; [done|].
  rewrite forallb_forall in *. intros a Ha. apply H. by apply in_rev.
Qed.

End PyStrFacts.

(** ** District numbers *)

Section Cleaning.
Import PyStr PyStrFacts.

(** The second [lstrip("'")] of the source has nothing left to remove. *)
Lemma clean_district_number_eq x :
  clean_district_number x =
    if isna x then None
    else
      let s := lstrip (is_char apostrophe) (strip is_space (str_of x)) in
      Some (if isdigit s then zfill 6 s else s).
Proof. unfold clean_district_number. by rewrite lstrip_idemp. Qed.

(** Beyond ASCII: a no-break space (U+00A0) is stripped as
    whitespace, and a superscript two (U+00B2) is a digit for
    [str.isdigit], so it is padded. *)
Example clean_district_number_latin1 :
  clean_district_number (CStr (py "12" ++ [ascii_of_nat 160])) = Some (py "000012")
  ∧ clean_district_number (CStr [ascii_of_nat 178])
    = Some (py "00000" ++ [ascii_of_nat 178]).
Proof. split; by vm_compute. Qed.

(** C1: the cleaning misses the quote that closes a quoted number.
    The second [lstrip("'")] of the source strips the left end once
    more and leaves the right end alone, so ['123'] is cleaned to
    [123'], which is not numeric and is not padded; stripping the
    quotes on both sides, as the docstring and the specification
    have it, gives [000123]. *)
Theorem clean_district_number_keeps_trailing_quote :
  clean_district_number (CStr (py "'123'")) = Some (py "123'")
  ∧ clean_district_number_spec (CStr (py "'123'")) = Some (py "000123")
  ∧ clean_district_number (CStr (py "'123'"))
    ≠ clean_district_number_spec (CStr (py "'123'")).
Proof. split_and!; [by vm_compute..|]. vm_compute. discriminate. Qed.

(** What the source computes on every value.  A missing value is
    cleaned to [None].  Any other value, written as text, is
    [blanks ++ quotes ++ rest ++ blanks'] where the blanks are the
    whitespace around it, [quotes] are the apostrophes that follow
    the leading whitespace, and [rest] starts with no apostrophe;
    when [rest] is purely numeric the result is [rest] left-padded
    with zeros to six digits (and [rest] itself when it has six
    digits or more), otherwise the result is [rest] unchanged. *)
Lemma clean_district_number_correct (x : cell) :
  if isna x then clean_district_number x = None
  else
    ∃ blanks quotes rest blanks' r,
      str_of x = blanks ++ (quotes ++ rest) ++ blanks'
      ∧ forallb is_space blanks = true
      ∧ forallb is_space blanks' = true
      ∧ starts_with is_space (quotes ++ rest) = false
      ∧ ends_with is_space (quotes ++ rest) = false
      ∧ forallb (is_char apostrophe) quotes = true
      ∧ starts_with (is_char apostrophe) rest = false
      ∧ clean_district_number x = Some r
      ∧ (isdigit rest = true →
           r = replicate (6 - length rest) zero_char ++ rest
           ∧ length r = 6 `max` length rest
           ∧ isdigit r = true)
      ∧ (isdigit rest = true → 6 ≤ length rest → r = rest)
      ∧ (isdigit rest = false → r = rest).
Proof.
  rewrite clean_district_number_eq. destruct (isna x); [done|].
  destruct (strip_split is_space (str_of x)) as (l & r & Hs & Hl & Hr & Hst & Hen).
  destruct (lstrip_split (is_char apostrophe) (strip is_space (str_of x)))
    as (q & Hq & Hqs).
  set (rest := lstrip (is_char apostrophe) (strip is_space (str_of x))) in *.
  exists l, q, rest, r, (if isdigit rest then zfill 6 rest else rest).
  rewrite <- Hq. split_and!; try done.
  - apply lstrip_starts.
  - intros H. rewrite H. split_and!.
    + by apply zfill_digits.
    + by apply zfill_length.
    + by apply zfill_isdigit.
  - intros H Hlen. rewrite H. by apply zfill_long.
  - by intros ->.
Qed.




Lemma lstrip_length p s : length (lstrip p s) ≤ length s.
Proof.
  destruct (lstrip_split p s) as (l & Hl & _).
  rewrite Hl at 2. rewrite length_app. lia.
Qed.

Lemma strip_length_lt p s : starts_with p s = true → length (strip p s) < length s.
Proof.
  destruct s as [|a t]; [done|]. simpl. intros Ha.
  unfold strip, rstrip. simpl. rewrite Ha.
  rewrite length_rev. pose proof (lstrip_length p (rev (lstrip p t))) as H1.
  rewrite length_rev in H1. pose proof (lstrip_length p t). lia.
Qed.

(** The condition of C9 (amended) is necessary: when whitespace
    follows the leading quotes, the second cleaning changes the
    result of the first. *)
Lemma clean_district_number_not_fixed (x : cell) :
  isna x = false →
  blank_after_quotes x = true →
  clean_district_number (cell_of (clean_district_number x))
  ≠ clean_district_number x.
Proof.
  intros Hna Hb. rewrite (clean_district_number_eq x), Hna. simpl.
  unfold blank_after_quotes in Hb.
  set (s := lstrip (is_char apostrophe) (strip is_space (str_of x))) in *.
  assert (isdigit s = false) as ->.
  { destruct s as [|a t]; [done|]. simpl in *.
    destruct (is_numeral a) eqn:Ed; [|done].
    by rewrite (digit_not_space a Ed) in Hb. }
  rewrite clean_district_number_eq. simpl.
  set (s' := lstrip (is_char apostrophe) (strip is_space s)).
  assert (length s' < length s) as Hlen.
  { pose proof (lstrip_length (is_char apostrophe) (strip is_space s)).
    pose proof (strip_length_lt is_space s Hb). subst s'. lia. }
  destruct (isdigit s') eqn:Ed; intros [= Heq].
  - pose proof (zfill_isdigit 6 s' Ed) as Hd. rewrite Heq in Hd.
    destruct s as [|a t]; [done|]. simpl in Hb, Hd.
    apply andb_prop in Hd as [Ha _]. by rewrite (digit_not_space a Ha) in Hb.
  - rewrite Heq in Hlen. lia.
Qed.


End Cleaning.

(** ** Column names *)

Module ReFacts.
Import PyStr PyStrFacts Re.

Lemma space_not_alnum a : is_space a = true → is_alnum a = false.
Proof. by_char a. Qed.

Lemma alnum_not_underscore a : is_alnum a = true → is_char underscore a = false.
Proof. by_char a. Qed.

Lemma lower_char_space a : is_space (lower_char a) = is_space a.
Proof. by_char a. Qed.

Lemma lstrip_map (f : ascii → ascii) p s :
  (∀ a, p (f a) = p a) → lstrip p (map f s) = map f (lstrip p s).
Proof.
  intros Hf. induction s as [|a t IH]; simpl; [done|].
  rewrite Hf. by destruct (p a).
Qed.

Lemma strip_map (f : ascii → ascii) p s :
  (∀ a, p (f a) = p a) → strip p (map f s) = map f (strip p s).
Proof.
  intros Hf. unfold strip, rstrip.
  rewrite lstrip_map, <- map_rev, lstrip_map, map_rev by done. done.
Qed.

Lemma lower_strip s : lower (strip is_space s) = strip is_space (lower s).
Proof. unfold lower. symmetry. apply strip_map, lower_char_space. Qed.

Lemma rstrip_app_all p s r : forallb p r = true → rstrip p (s ++ r) = rstrip p s.
Proof.
  intros H. unfold rstrip. rewrite rev_app_distr, lstrip_app_all; [done|].
  rewrite forallb_forall in *. intros a Ha. apply H. by apply in_rev.
Qed.

Lemma lstrip_app_some p s r :
  forallb p s = false → lstrip p (s ++ r) = lstrip p s ++ r.
Proof.
  induction s as [|a t IH]; simpl; [done|].
  destruct (p a); simpl; [auto|done].
Qed.

Lemma strip_app_all_l p l s : forallb p l = true → strip p (l ++ s) = strip p s.
Proof. intros H. unfold strip. by rewrite lstrip_app_all. Qed.

Lemma strip_app_all_r p s r : forallb p r = true → strip p (s ++ r) = strip p s.
Proof.
  intros H. unfold strip. destruct (forallb p s) eqn:E.
  - rewrite !lstrip_all; [done..|]. by rewrite forallb_app, E, H.
  - rewrite lstrip_app_some by done. by apply rstrip_app_all.
Qed.

(** *** The two substitutions *)

Lemma sub_nonalnum_in_run_starts s :
  starts_with (is_char underscore) (sub_nonalnum_from true s) = false.
Proof.
  induction s as [|a t IH]; simpl; [done|].
  destruct (is_alnum a) eqn:E; [|done]. simpl. by apply alnum_not_underscore.
Qed.

(** After the first substitution no two underscores are adjacent, so
    the second substitution finds nothing to replace. *)
Lemma sub_underscores_sub_nonalnum b s :
  sub_underscores (sub_nonalnum_from b s) = sub_nonalnum_from b s.
Proof.
  unfold sub_underscores. revert b.
  induction s as [|a t IH]; intros b; simpl; [done|].
  destruct (is_alnum a) eqn:E.
  - simpl. rewrite (alnum_not_underscore a E). by rewrite IH.
  - destruct b; [apply IH|].
    pose proof (sub_nonalnum_in_run_starts t) as Hs.
    specialize (IH true). simpl.
    destruct (sub_nonalnum_from true t) as [|c u] eqn:Eu; [done|].
    simpl in Hs. rewrite Hs. replace (is_char underscore underscore) with true by done.
    by rewrite IH.
Qed.

Lemma sub_underscores_redundant s :
  sub_underscores (sub_nonalnum s) = sub_nonalnum s.
Proof. apply sub_underscores_sub_nonalnum. Qed.

Lemma sub_nonalnum_in_run_app l s :
  forallb (λ a, negb (is_alnum a)) l = true →
  sub_nonalnum_from true (l ++ s) = sub_nonalnum_from true s.
Proof.
  induction l as [|a t IH]; simpl; [done|].
  intros [Ha Ht]%andb_prop. apply negb_true_iff in Ha. rewrite Ha. auto.
Qed.

(** Starting inside or outside a run changes the result by at most
    one leading underscore. *)
Lemma sub_nonalnum_from_flag b s :
  ∃ u, forallb (is_char underscore) u = true
       ∧ sub_nonalnum_from b s = u ++ sub_nonalnum_from true s.
Proof.
  destruct s as [|a t]; simpl; [by exists []|].
  destruct (is_alnum a); [by exists []|].
  destruct b; [by exists []|]. by exists [underscore].
Qed.

Lemma sub_nonalnum_all b r :
  forallb (λ a, negb (is_alnum a)) r = true →
  forallb (is_char underscore) (sub_nonalnum_from b r) = true.
Proof.
  revert b. induction r as [|a t IH]; intros b; simpl; [done|].
  intros [Ha Ht]%andb_prop. apply negb_true_iff in Ha. rewrite Ha.
  destruct b; simpl; auto.
Qed.

Lemma sub_nonalnum_from_app b s r :
  ∃ c, sub_nonalnum_from b (s ++ r) = sub_nonalnum_from b s ++ sub_nonalnum_from c r.
Proof.
  revert b. induction s as [|a t IH]; intros b; simpl; [by exists b|].
  destruct (is_alnum a).
  - destruct (IH false) as [c ->]. by exists c.
  - destruct (IH true) as [c Hc]. exists c. rewrite Hc. by destruct b.
Qed.

Lemma strip_sub_nonalnum_flag b s :
  strip (is_char underscore) (sub_nonalnum_from b s)
  = strip (is_char underscore) (sub_nonalnum_from true s).
Proof.
  destruct (sub_nonalnum_from_flag b s) as (u & Hu & ->).
  by apply strip_app_all_l.
Qed.

(** Non-alphanumeric characters on either side do not show in the
    stripped result. *)
Lemma strip_sub_nonalnum_around l s r :
  forallb (λ a, negb (is_alnum a)) l = true →
  forallb (λ a, negb (is_alnum a)) r = true →
  strip (is_char underscore) (sub_nonalnum (l ++ s ++ r))
  = strip (is_char underscore) (sub_nonalnum s).
Proof.
  intros Hl Hr. unfold sub_nonalnum.
  rewrite (strip_sub_nonalnum_flag false (l ++ _)), sub_nonalnum_in_run_app by done.
  rewrite <- (strip_sub_nonalnum_flag false).
  destruct (sub_nonalnum_from_app false s r) as [c ->].
  apply strip_app_all_r. by apply sub_nonalnum_all.
Qed.

Lemma spaces_nonalnum l :
  forallb is_space l = true → forallb (λ a, negb (is_alnum a)) l = true.
Proof.
  rewrite !forallb_forall. intros H a Ha.
  apply negb_true_iff, space_not_alnum. auto.
Qed.

(** *** The characters of the result *)

Lemma lower_char_alnum a :
  is_alnum (lower_char a) = true →
  is_digit (lower_char a) || is_lower (lower_char a) = true.
Proof. by_char a. Qed.

Lemma sub_nonalnum_from_elem b s a :
  a ∈ sub_nonalnum_from b s → a = underscore ∨ (a ∈ s ∧ is_alnum a = true).
Proof.
  revert b. induction s as [|c t IH]; intros b; simpl; [by intros ?%elem_of_nil|].
  destruct (is_alnum c) eqn:E.
  - intros [->|H]%elem_of_cons; [right; split; [by left|done]|].
    destruct (IH _ H) as [?|[? ?]]; [by left|right; split; [by right|done]].
  - assert (a ∈ sub_nonalnum_from true t → a = underscore ∨ a ∈ c :: t ∧ is_alnum a = true)
      as Hrest.
    { intros H. destruct (IH _ H) as [?|[? ?]]; [by left|right; split; [by right|done]]. }
    destruct b; [done|]. intros [->|H]%elem_of_cons; [by left|auto].
Qed.

Lemma strip_elem p s a : a ∈ strip p s → a ∈ s.
Proof.
  intros H. destruct (strip_split p s) as (l & r & Hs & _).
  rewrite Hs. apply elem_of_app. right. apply elem_of_app. by left.
Qed.

Lemma prefix_elem n s a : a ∈ prefix n s → a ∈ s.
Proof.
  unfold prefix. intros H. rewrite <- (take_drop n s). apply elem_of_app. by left.
Qed.

End ReFacts.

(** X21: the slip of [clean_district_number] shows on no other
    value: when, between the surrounding blanks, the text of [x]
    does not end with an apostrophe and has no blank right after its
    leading apostrophes, the source returns what stripping the
    quotes and the whitespace on both sides gives. *)
Theorem clean_district_number_agrees (x : cell) :
  let rest := PyStr.lstrip (PyStr.is_char PyStr.apostrophe)
                (PyStr.strip PyStr.is_space (str_of x)) in
  PyStr.starts_with PyStr.is_space rest = false →
  PyStr.ends_with (PyStr.is_char PyStr.apostrophe) rest = false →
  clean_district_number x = clean_district_number_spec x.
Proof.
  intros rest Hs He. unfold clean_district_number, clean_district_number_spec.
  rewrite PyStrFacts.lstrip_idemp. destruct (isna x); [done|]. fold rest.
  destruct (PyStrFacts.strip_split PyStr.is_space (str_of x))
    as (l & r & Hx & Hl & Hr & _ & Hend).
  destruct (PyStrFacts.lstrip_split (PyStr.is_char PyStr.apostrophe)
              (PyStr.strip PyStr.is_space (str_of x))) as (q & Hq & Hqs).
  fold rest in Hq.
  assert (∀ p k, forallb p k = true →
                 (∀ a, p a = true → is_quote_or_space a = true) →
                 forallb is_quote_or_space k = true) as Hweak.
  { intros p k Hk Hp. rewrite forallb_forall in *. intros a Ha. by apply Hp, Hk. }
  assert (PyStr.strip is_quote_or_space (str_of x) = rest) as ->; [|done].
  rewrite Hx, Hq, <- !app_assoc.
  rewrite ReFacts.strip_app_all_l
    by (apply (Hweak _ _ Hl); intros a Ha; unfold is_quote_or_space;
        by rewrite Ha, orb_true_r).
  rewrite ReFacts.strip_app_all_l
    by (apply (Hweak _ _ Hqs); intros a Ha; unfold is_quote_or_space; by rewrite Ha).
  rewrite ReFacts.strip_app_all_r
    by (apply (Hweak _ _ Hr); intros a Ha; unfold is_quote_or_space;
        by rewrite Ha, orb_true_r).
  apply PyStrFacts.strip_id.
  - destruct rest as [|a t] eqn:E; [done|]. simpl in *.
    pose proof (PyStrFacts.lstrip_starts (PyStr.is_char PyStr.apostrophe)
                  (PyStr.strip PyStr.is_space (str_of x))) as Hst.
    fold rest in Hst. subst rest. rewrite E in Hst. simpl in Hst.
    unfold is_quote_or_space. by rewrite Hst, Hs.
  - assert (PyStr.ends_with PyStr.is_space rest = false) as Hsp
      by (apply PyStrFacts.lstrip_ends, PyStrFacts.strip_ends).
    revert He Hsp. unfold PyStr.ends_with.
    destruct (rev rest) as [|a t]; [done|]. simpl.
    unfold is_quote_or_space. by intros -> ->.
Qed.

Lemma clean_district_number_agrees_witness :
  PyStr.starts_with PyStr.is_space
    (PyStr.lstrip (PyStr.is_char PyStr.apostrophe)
       (PyStr.strip PyStr.is_space (str_of (CStr (py " '57905 "))))) = false
  ∧ PyStr.ends_with (PyStr.is_char PyStr.apostrophe)
      (PyStr.lstrip (PyStr.is_char PyStr.apostrophe)
         (PyStr.strip PyStr.is_space (str_of (CStr (py " '57905 "))))) = false
  ∧ clean_district_number (CStr (py " '57905 "))
    = clean_district_number_spec (CStr (py " '57905 ")).
Proof.
  split; [reflexivity|]. split; [reflexivity|].
  apply (clean_district_number_agrees (CStr (py " '57905 "))); reflexivity.
Defined.

Section ColumnNames.
Import PyStr PyStrFacts Re ReFacts.

(** C2, as stated, fails on the maximum length: a name of 63
    letters is cut to 60 characters. *)
Lemma to_snake_case_cuts_at_60 :
  length (to_snake_case (replicate 63 (ascii_of_nat 97))) = 60
  ∧ length (to_snake_case_spec 63 (replicate 63 (ascii_of_nat 97))) = 63
  ∧ to_snake_case (replicate 63 (ascii_of_nat 97))
    ≠ to_snake_case_spec 63 (replicate 63 (ascii_of_nat 97)).
Proof. split_and!; [by vm_compute..|]. vm_compute. discriminate. Qed.

(** C2 (amended): [to_snake_case] lower-cases the name, replaces
    each run of non-alphanumeric characters with one underscore,
    strips the underscores at both ends and keeps the first 60
    characters of the result, which are digits, lower-case letters
    and underscores. *)
Theorem to_snake_case_correct (name : str) :
  to_snake_case name = to_snake_case_spec 60 name
  ∧ length (to_snake_case name) ≤ 60
  ∧ ∀ a, a ∈ to_snake_case name →
         a = underscore ∨ is_digit a || is_lower a = true.
Proof.
  assert (to_snake_case name = to_snake_case_spec 60 name) as Heq; [|split; [done|split]].
  - unfold to_snake_case, to_snake_case_spec. f_equal.
    rewrite sub_underscores_redundant, lower_strip.
    destruct (strip_split is_space (lower name)) as (l & r & Hs & Hl & Hr & _).
    rewrite Hs at 2. symmetry.
    apply strip_sub_nonalnum_around; by apply spaces_nonalnum.
  - unfold to_snake_case, prefix. rewrite length_take. lia.
  - rewrite Heq. unfold to_snake_case_spec.
    intros a [Hu|[Hin Ha]]%prefix_elem%strip_elem%sub_nonalnum_from_elem; [by left|].
    right. unfold lower in Hin.
    apply list_elem_of_In, in_map_iff in Hin as (a0 & <- & _).
    by apply lower_char_alnum.
Qed.

End ColumnNames.

(** ** Renaming: the first free name *)

Section Renaming.
Import PyStr.

Lemma py_inj (s t : string) : py s = py t → s = t.
Proof.
  unfold py. intros H.
  by rewrite <- (string_of_list_ascii_of_string s), H, string_of_list_ascii_of_string.
Qed.

Lemma suffixed_inj base i j : suffixed base i = suffixed base j → i = j.
Proof.
  unfold suffixed. intros H%app_inv_head. injection H as H.
  by apply py_inj, (inj pretty) in H.
Qed.

Lemma suffixed_ne_base base i : suffixed base i ≠ base.
Proof.
  unfold suffixed. intros H%(f_equal length).
  rewrite length_app in H. simpl in H. lia.
Qed.

Lemma suffixed_1 base : suffixed base 1 = base ++ py "_1".
Proof. reflexivity. Qed.

(** What the inner loop has found when it stops. *)
Lemma probe_Some seen base fuel candidate i found :
  probe seen base fuel candidate i = Some found →
  (found ∉ seen)
  ∧ (found = candidate
     ∨ ∃ k, i ≤ k ∧ found = suffixed base k ∧ candidate ∈ seen
            ∧ ∀ j, i ≤ j < k → suffixed base j ∈ seen).
Proof.
  revert candidate i. induction fuel as [|fuel IH]; intros candidate i; simpl; [done|].
  case_bool_decide as Hin.
  - intros (Hfree & [-> | (k & Hk & -> & Hc & Hbelow)])%IH; (split; [done|right]).
    + exists i. split_and!; [lia|done|done|]. intros j ?. lia.
    + exists k. split_and!; [lia|done|done|].
      intros j Hj. destruct (decide (j = i)) as [->|]; [done|]. apply Hbelow. lia.
  - intros [= <-]. auto.
Qed.

(** What the inner loop has tested when the fuel runs out. *)
Lemma probe_None seen base fuel candidate i :
  probe seen base (S fuel) candidate i = None →
  candidate ∈ seen ∧ ∀ j, i ≤ j < i + fuel → suffixed base j ∈ seen.
Proof.
  revert candidate i. induction fuel as [|fuel IH]; intros candidate i.
  - simpl. case_bool_decide; [|done]. intros _. split; [done|]. intros j ?. lia.
  - change (probe seen base (S (S fuel)) candidate i)
      with (if bool_decide (candidate ∈ seen)
            then probe seen base (S fuel) (suffixed base i) (S i)
            else Some candidate).
    case_bool_decide; [|done].
    intros [Hi Hrest]%IH. split; [done|].
    intros j Hj. destruct (decide (j = i)) as [->|]; [done|]. apply Hrest. lia.
Qed.

(** The inner loop terminates: among [base], [base_1], ...,
    [base_n] with [n] the size of [seen], one name is free. *)
Lemma fresh_name_total seen base : is_Some (fresh_name seen base).
Proof.
  unfold fresh_name. destruct (probe _ _ _ _ _) as [c|] eqn:E; [by eexists|].
  exfalso. apply probe_None in E as [Hb Hs].
  pose (l := base :: map (suffixed base) (seq 1 (size seen))).
  assert (NoDup l) as Hnd.
  { apply NoDup_cons. split.
    - intros (j & Hj & _)%list_elem_of_In%in_map_iff. by apply suffixed_ne_base in Hj.
    - apply (NoDup_fmap_2_strong (suffixed base)); [|apply NoDup_seq].
      intros ?? _ _. apply suffixed_inj. }
  assert (list_to_set l ⊆ seen) as Hsub.
  { intros x [->|Hx]%elem_of_list_to_set%elem_of_cons; [done|].
    apply list_elem_of_In, in_map_iff in Hx as (j & <- & Hj%in_seq). apply Hs. lia. }
  apply subseteq_size in Hsub. rewrite size_list_to_set in Hsub by done.
  subst l. simpl in Hsub. rewrite length_map, length_seq in Hsub. lia.
Qed.

Lemma fresh_name_first_free seen base name :
  fresh_name seen base = Some name → first_free seen base name.
Proof.
  intros (Hfree & [-> | (k & Hk & -> & Hb & Hbelow)])%probe_Some; split; auto.
  right. exists k. auto.
Qed.

(** The outer loop never fails. *)
Lemma rename_loop_total (cols : list str) (seen : gset str) (m : gmap str str) : ∃ m', rename_loop cols seen m = Ok m'.
Proof.
  revert seen m. induction cols as [|col rest IH]; intros seen m; simpl; [by eexists|].
  destruct (fresh_name_total seen (to_snake_case col)) as [c ->]. apply IH.
Qed.

(** A column that the loop does not visit keeps its entry. *)
Lemma rename_loop_other (cols : list str) (seen : gset str) (m m' : gmap str str) (col : str) :
  col ∉ cols → rename_loop cols seen m = Ok m' → m' !! col = m !! col.
Proof.
  revert seen m. induction cols as [|c rest IH]; intros seen m Hnot; simpl.
  - by intros [= <-].
  - apply not_elem_of_cons in Hnot as [Hne Hnot].
    destruct (fresh_name seen (to_snake_case c)) as [cand|]; [|done].
    intros H%IH; [|done]. rewrite H. by apply lookup_insert_ne.
Qed.

(** The invariant of the outer loop: each column gets the first name
    that is free of [seen] and of the names given before it. *)
Lemma rename_loop_first_free (cols : list str) (seen : gset str) (m m' : gmap str str) :
  NoDup cols →
  rename_loop cols seen m = Ok m' →
  ∀ k col name,
    cols !! k = Some col →
    map (renamed m') cols !! k = Some name →
    first_free (seen ∪ list_to_set (take k (map (renamed m') cols)))
      (to_snake_case col) name.
Proof.
  revert seen m. induction cols as [|c rest IH]; intros seen m Hnd; [done|].
  apply NoDup_cons in Hnd as [Hc Hnd]. simpl.
  destruct (fresh_name seen (to_snake_case c)) as [cand|] eqn:Ef; [|done].
  intros Hloop.
  assert (renamed m' c = cand) as Hcand.
  { unfold renamed.
    by rewrite (rename_loop_other _ _ _ _ _ Hc Hloop), lookup_insert_eq. }
  intros [|k] col name; simpl.
  - intros [= <-] [= <-]. rewrite Hcand.
    rewrite (right_id_L ∅ (∪)). by apply fresh_name_first_free.
  - intros Hcol Hname. rewrite Hcand.
    rewrite (assoc_L (∪) seen), (comm_L (∪) seen {[cand]}).
    by eapply IH.
Qed.

Lemma first_free_NoDup (names : list str) :
  (∀ k name, names !! k = Some name → name ∉ take k names) → NoDup names.
Proof.
  intros H. apply NoDup_alt. intros i j x Hi Hj.
  destruct (Nat.lt_trichotomy i j) as [Hlt|[->|Hlt]]; [|done|]; exfalso.
  - apply (H j x Hj). apply list_elem_of_lookup. exists i.
    by rewrite lookup_take_lt.
  - apply (H i x Hi). apply list_elem_of_lookup. exists j.
    by rewrite lookup_take_lt.
Qed.

Lemma final_names_pair (c1 c2 : str) :
  c1 ≠ c2 →
  to_snake_case c1 = to_snake_case c2 →
  final_names [c1; c2] = Ok [to_snake_case c1; to_snake_case c1 ++ py "_1"].
Proof.
  intros Hne Hb. unfold final_names, column_mapping. simpl. rewrite <- Hb.
  set (b := to_snake_case c1).
  assert (fresh_name ∅ b = Some b) as -> by done.
  assert (fresh_name ({[b]} ∪ ∅) b = Some (suffixed b 1)) as ->.
  { unfold fresh_name. rewrite (right_id_L ∅ (∪)), size_singleton. simpl.
    rewrite bool_decide_eq_true_2 by set_solver.
    rewrite bool_decide_eq_false_2; [done|].
    intros Hin%elem_of_singleton. by apply suffixed_ne_base in Hin. }
  simpl. unfold renamed.
  rewrite lookup_insert_ne, lookup_insert_eq, lookup_insert_eq by done. done.
Qed.

(** C4: for the distinct header names of a frame, renaming yields
    final names that are pairwise distinct; each column gets the
    first name, in the sequence [base], [base_1], [base_2], ... of
    its canonical name, that no earlier column has got; two columns
    that both canonicalize to [base] get [base] and [base_1], in
    this order. *)
Theorem final_names_distinct (cols : list str) :
  NoDup cols →
  ∃ names,
    final_names cols = Ok names
    ∧ length names = length cols
    ∧ NoDup names
    ∧ (∀ k col name,
         cols !! k = Some col →
         names !! k = Some name →
         first_free (list_to_set (take k names)) (to_snake_case col) name)
    ∧ (∀ c1 c2,
         cols = [c1; c2] →
         to_snake_case c1 = to_snake_case c2 →
         names = [to_snake_case c1; to_snake_case c1 ++ py "_1"]).
Proof.
  intros Hnd. unfold final_names, column_mapping.
  destruct (rename_loop_total cols ∅ ∅) as [m Hm]. rewrite Hm. simpl.
  exists (map (renamed m) cols).
  assert (∀ k col name,
            cols !! k = Some col →
            map (renamed m) cols !! k = Some name →
            first_free (list_to_set (take k (map (renamed m) cols)))
              (to_snake_case col) name) as Hfirst.
  { intros k col name Hcol Hname.
    rewrite <- (left_id_L ∅ (∪) (list_to_set _)).
    by eapply rename_loop_first_free. }
  split_and!; [done|by rewrite length_map| |done|].
  - apply first_free_NoDup. intros k name Hname.
    destruct (lookup_lt_is_Some_2 cols k) as [col Hcol].
    { apply lookup_lt_Some in Hname. by rewrite length_map in Hname. }
    destruct (Hfirst k col name Hcol Hname) as [Hfree _].
    by rewrite elem_of_list_to_set in Hfree.
  - intros c1 c2 -> Hb.
    assert (c1 ≠ c2) as Hne.
    { apply NoDup_cons in Hnd as [Hnot _]. set_solver. }
    pose proof (final_names_pair c1 c2 Hne Hb) as Hp.
    unfold final_names, column_mapping in Hp. rewrite Hm in Hp. simpl in *.
    congruence.
Qed.

Lemma final_names_distinct_witness :
  NoDup [py "Total Revenue"; py "TOTAL REVENUE"]
  ∧ ∃ names,
      final_names [py "Total Revenue"; py "TOTAL REVENUE"] = Ok names
      ∧ length names = 2
      ∧ NoDup names
      ∧ (∀ k col name,
           [py "Total Revenue"; py "TOTAL REVENUE"] !! k = Some col →
           names !! k = Some name →
           first_free (list_to_set (take k names)) (to_snake_case col) name)
      ∧ (∀ c1 c2,
           [py "Total Revenue"; py "TOTAL REVENUE"] = [c1; c2] →
           to_snake_case c1 = to_snake_case c2 →
           names = [to_snake_case c1; to_snake_case c1 ++ py "_1"]).
Proof.
  assert (NoDup [py "Total Revenue"; py "TOTAL REVENUE"]) as Hnd.
  { apply (bool_decide_unpack _). vm_compute. exact I. }
  split; [exact Hnd|].
  apply (final_names_distinct [py "Total Revenue"; py "TOTAL REVENUE"] Hnd).
Defined.

End Renaming.

(** ** Runs with the set in any layout *)

Section Runs.

(** The bounded loop finds what the unbounded loop finds. *)
Lemma probes_probe l base candidate i found fuel c :
  probes l base candidate i found →
  probe (list_to_set l) base fuel candidate i = Some c →
  c = found.
Proof.
  intros Hrun. revert fuel.
  induction Hrun as [candidate i Hfree | candidate i found Hin _ IH]; intros [|fuel]; simpl; try done.
  - rewrite bool_decide_eq_false_2 by by rewrite elem_of_list_to_set.
    by intros [= <-].
  - rewrite bool_decide_eq_true_2 by by rewrite elem_of_list_to_set.
    apply IH.
Qed.

Lemma probe_probes l base fuel candidate i found :
  probe (list_to_set l) base fuel candidate i = Some found →
  probes l base candidate i found.
Proof.
  revert candidate i. induction fuel as [|fuel IH]; intros candidate i; simpl; [done|].
  case_bool_decide as Hin; rewrite elem_of_list_to_set in Hin.
  - intros H%IH. by apply probes_taken.
  - intros [= <-]. by apply probes_free.
Qed.

(** The unbounded loop stops exactly on the name [fresh_name] computes. *)
Lemma probes_fresh_name l base found :
  probes l base base 1 found ↔ fresh_name (list_to_set l) base = Some found.
Proof.
  split.
  - intros Hrun. destruct (fresh_name_total (list_to_set l) base) as [c Hc].
    rewrite Hc. f_equal. by eapply probes_probe.
  - apply probe_probes.
Qed.

(** Every run of the renaming loop, whatever the layouts of the set,
    computes the mapping of [rename_loop]. *)
Lemma renames_rename_loop cols l m m' :
  renames cols l m m' → rename_loop cols (list_to_set l) m = Ok m'.
Proof.
  induction 1 as [|col rest seen seen' candidate m m' Hp Hperm _ IH]; simpl; [done|].
  apply probes_fresh_name in Hp. rewrite Hp.
  rewrite <- IH. f_equal.
  apply leibniz_equiv. by rewrite Hperm.
Qed.

(** [rename_loop] is one of the runs. *)
Lemma rename_loop_renames cols l m m' :
  rename_loop cols (list_to_set l) m = Ok m' → renames cols l m m'.
Proof.
  revert l m. induction cols as [|col rest IH]; intros l m; simpl.
  - intros [= <-]. constructor.
  - destruct (fresh_name _ _) as [c|] eqn:E; [|done].
    intros H. eapply (renames_column _ _ _ (c :: l)); [by apply probes_fresh_name|done|].
    by apply IH.
Qed.

End Runs.

(** ** Fallible traversals *)

Lemma traverse_map {A B C : Type} (f : B → result C) (g : A → B) (l : list A) :
  traverse f (map g l) = traverse (λ a, f (g a)) l.
Proof. induction l as [|a t IH]; simpl; [done|]. by rewrite IH. Qed.


(** ** Type conversion *)

Section PandasFacts.
Variable parse_number : cell → option number.

Abbreviation to_numeric' := (to_numeric parse_number).
Abbreviation convert_column' := (convert_column parse_number).

Lemma count_notna_le nums : count_notna nums ≤ length nums.
Proof. unfold count_notna. apply length_filter. Qed.

(** The 90% rule, on a column that is neither an identifier nor the
    year. *)
Lemma convert_column_by_share (c : column) :
  by_share (col_name c) = true →
  convert_column' c =
    Ok (TypedColumn (col_name c)
          (if mostly_numeric (map to_numeric' (col_data c))
           then Numeric (map to_numeric' (col_data c))
           else Object (col_data c))).
Proof.
  unfold by_share, convert_column. intros H%negb_true_iff.
  apply orb_false_iff in H as [H ->]. rewrite H. simpl.
  by destruct (mostly_numeric _).
Qed.

Lemma mostly_numeric_iff (l : list cell) :
  mostly_numeric (map to_numeric' l) = true
  ↔ l ≠ [] ∧ 9 * length l ≤ 10 * count_parsed parse_number l.
Proof.
  unfold mostly_numeric, count_parsed.
  destruct l as [|x t]; [split; [done|by intros [? _]]|].
  rewrite <- length_map with (f := to_numeric').
  change (map to_numeric' (x :: t)) with (to_numeric' x :: map to_numeric' t).
  rewrite Nat.leb_le. split; [by intros ?|by intros [_ ?]].
Qed.

(** C3 (amended): a column other than [district_number],
    [district_name] and [year] is coerced to numeric if and only if
    it has at least one row and at least 90% of all its rows,
    missing values included, hold a value that parses as a number;
    otherwise it is left as it was read. *)
Theorem coercion_by_share_of_rows (c : column) :
  by_share (col_name c) = true →
  ∃ tc,
    convert_column' c = Ok tc
    ∧ typed_name tc = col_name c
    ∧ (is_numeric tc = true
       ↔ col_data c ≠ [] ∧ 9 * length (col_data c) ≤ 10 * count_parsed parse_number (col_data c))
    ∧ (is_numeric tc = true → typed_data tc = Numeric (map to_numeric' (col_data c)))
    ∧ (is_numeric tc = false → typed_data tc = Object (col_data c)).
Proof.
  intros H. rewrite (convert_column_by_share c H). eexists. split; [done|]. simpl.
  split; [done|]. rewrite <- mostly_numeric_iff.
  unfold is_numeric. simpl. by destruct (mostly_numeric _).
Qed.

End PandasFacts.

(** C3, as stated, fails: the share is taken over all the rows of
    the column.  A column of two numerals and two missing values is
    left as text, although every value that is not missing parses. *)
Lemma coercion_counts_missing_rows :
  convert_column parse_integer (Column (py "enrollment") half_missing)
  = Ok (TypedColumn (py "enrollment") (Object half_missing))
  ∧ by_share (py "enrollment") = true
  ∧ length half_missing = 4
  ∧ count_present half_missing = 2
  ∧ count_parsed parse_integer half_missing = 2
  ∧ 9 * count_present half_missing ≤ 10 * count_parsed parse_integer half_missing.
Proof. split_and!; try (by vm_compute). vm_compute. lia. Qed.

(** Nine numerals in ten rows are just enough. *)
Example coercion_at_90_percent :
  is_numeric <$> convert_column parse_integer (Column (py "enrollment") nine_of_ten)
  = Ok true.
Proof. by vm_compute. Qed.

Lemma coercion_by_share_of_rows_witness :
  by_share (py "enrollment") = true
  ∧ ∃ tc,
      convert_column parse_integer (Column (py "enrollment") nine_of_ten) = Ok tc
      ∧ typed_name tc = py "enrollment"
      ∧ (is_numeric tc = true
         ↔ nine_of_ten ≠ []
           ∧ 9 * length nine_of_ten ≤ 10 * count_parsed parse_integer nine_of_ten)
      ∧ (is_numeric tc = true →
         typed_data tc = Numeric (map (to_numeric parse_integer) nine_of_ten))
      ∧ (is_numeric tc = false → typed_data tc = Object nine_of_ten).
Proof.
  split; [reflexivity|].
  apply (coercion_by_share_of_rows parse_integer (Column (py "enrollment") nine_of_ten)).
  reflexivity.
Defined.

(** ** The whole preparation *)

Section Preparation.
Variable parse_number : cell → option number.

(** Every column the loop visits gets its canonical name, or its
    canonical name with a numeric suffix. *)
Lemma rename_loop_shape (cols : list str) (seen : gset str) (m m' : gmap str str) col :
  rename_loop cols seen m = Ok m' →
  col ∈ cols →
  ∃ name, m' !! col = Some name
          ∧ (name = to_snake_case col ∨ ∃ i, name = suffixed (to_snake_case col) i).
Proof.
  revert seen m. induction cols as [|c rest IH]; intros seen m; simpl.
  - intros _ Hin. by apply elem_of_nil in Hin.
  - destruct (fresh_name seen (to_snake_case c)) as [cand|] eqn:Ef; [|done].
    intros Hloop Hin. destruct (decide (col ∈ rest)) as [Hrest|Hrest]; [by eapply IH|].
    apply elem_of_cons in Hin as [->|Hin]; [|done].
    exists cand. rewrite (rename_loop_other _ _ _ _ _ Hrest Hloop), lookup_insert_eq.
    split; [done|].
    apply fresh_name_first_free in Ef as [_ [->|(i & _ & -> & _)]]; eauto.
Qed.

(** A suffixed name holds an underscore, so [year] is never one. *)
Lemma year_is_canonical base name :
  name = py "year" →
  name = base ∨ (∃ i, name = suffixed base i) →
  base = py "year".
Proof.
  intros -> [<-|[i Hi]]; [done|]. exfalso.
  assert (PyStr.underscore ∈ py "year") as Hin.
  { rewrite Hi. unfold suffixed. apply elem_of_app. right. by left. }
  vm_compute in Hin. repeat (apply elem_of_cons in Hin as [Hin|Hin]; [done|]).
  by apply elem_of_nil in Hin.
Qed.



Lemma cleaned_name c : col_name (cleaned c) = col_name c.
Proof. unfold cleaned. by case_bool_decide. Qed.


Lemma cleaned_year c :
  to_snake_case (col_name c) = py "year" → col_data (cleaned c) = col_data c.
Proof.
  unfold cleaned. case_bool_decide as Hn; [|done].
  rewrite Hn. by vm_compute.
Qed.


Lemma apply_column_cleaned (df : frame) :
  has_column (py "DISTRICT NUMBER") df = true →
  apply_column (py "DISTRICT NUMBER") (λ x, cell_of (clean_district_number x)) df
  = Ok (map cleaned df).
Proof. unfold apply_column. by intros ->. Qed.

Lemma apply_column_missing (df : frame) :
  has_column (py "DISTRICT NUMBER") df = false →
  apply_column (py "DISTRICT NUMBER") (λ x, cell_of (clean_district_number x)) df
  = Err (KeyError (py "DISTRICT NUMBER")).
Proof. unfold apply_column. by intros ->. Qed.


(** *** Sheets and their labels *)

Lemma text_columns_Ok (sh : sheet) (df : frame) :
  traverse text_column sh = Ok df → all_text sh = true ∧ Forall2 same_column sh df.
Proof.
  revert df. induction sh as [|[[s|z] data] t IH]; intros df; simpl; [..|done].
  - intros [= <-]. split; [done|constructor].
  - destruct (traverse text_column t) as [df'|e]; [|done]. simpl.
    intros [= <-]. destruct (IH df' eq_refl) as [Ht HF].
    split; [done|]. by constructor.
Qed.

Lemma text_columns_all_text (sh : sheet) :
  all_text sh = true → ∃ df, traverse text_column sh = Ok df.
Proof.
  induction sh as [|[[s|z] data] t IH]; simpl; [by eexists|..|done].
  intros [df ->]%IH. by eexists.
Qed.

Lemma text_columns_Err (sh : sheet) (e : error) :
  traverse text_column sh = Err e →
  e = AttributeError ∧ ∃ c z, c ∈ sh ∧ sheet_label c = LNumber z.
Proof.
  induction sh as [|[[s|z] data] t IH]; simpl; [done|..].
  - destruct (traverse text_column t) as [df'|e']; [done|]. simpl.
    intros [= ->]. destruct (IH eq_refl) as (-> & c & z & Hc & Hz).
    split; [done|]. exists c, z. split; [by right|done].
  - intros [= <-]. split; [done|].
    exists (SheetColumn (LNumber z) data), z. split; [by left|done].
Qed.

Lemma same_column_elem (sh : sheet) (df : frame) (d : column) :
  Forall2 same_column sh df → d ∈ df → ∃ c, c ∈ sh ∧ same_column c d.
Proof.
  intros HF (i & Hi)%list_elem_of_lookup.
  destruct (Forall2_lookup_r _ _ _ _ _ HF Hi) as (c & Hc & Hcd).
  exists c. split; [|done]. apply list_elem_of_lookup. eauto.
Qed.

Lemma same_column_has_column (sh : sheet) (df : frame) (name : str) :
  Forall2 same_column sh df →
  LText name ∈ map sheet_label sh ↔ has_column name df = true.
Proof.
  intros HF. unfold has_column. rewrite bool_decide_eq_true.
  induction HF as [|c d t u [Hl _] _ IH]; simpl; [by rewrite !elem_of_nil|].
  rewrite !elem_of_cons, IH, Hl. split; (intros [H|H]; [left|by right]); congruence.
Qed.





End Preparation.

Lemma sheet_of_text_columns (df : frame) :
  traverse text_column (sheet_of df) = Ok df.
Proof.
  induction df as [|[name data] t IH]; [done|].
  change (traverse text_column (sheet_of (Column name data :: t)))
    with (bs ← traverse text_column (sheet_of t); Ok (Column name data :: bs)).
  by rewrite IH.
Qed.




(** ** Per-student metrics *)

Lemma enrollment_not_zero (p : positive) :
  Q2Qc (inject_Z (Z.of_N (N.pos p))) ≠ 0%Qc.
Proof.
  intros H%Q2Qc_eq_iff. unfold Qeq in H. simpl in H. lia.
Qed.

Lemma per_student_no_fault total enrolled : ∃ v, per_student total enrolled = inr v.
Proof.
  unfold per_student. destruct enrolled as [[|p]|]; [by eexists| |by eexists].
  destruct total as [t|]; [|by eexists].
  unfold divide. rewrite bool_decide_eq_false_2 by apply enrollment_not_zero.
  by eexists.
Qed.

Lemma per_student_value (t : Qc) (p : positive) :
  per_student (Some t) (Some (N.pos p))
  = inr (Some (t / Q2Qc (inject_Z (Z.pos p)))%Qc).
Proof.
  unfold per_student, divide.
  by rewrite bool_decide_eq_false_2 by apply enrollment_not_zero.
Qed.

Lemma per_student_null total enrolled :
  enrolled = None ∨ enrolled = Some 0%N → per_student total enrolled = inr None.
Proof. by intros [-> | ->]. Qed.

(** C5: metric derivation never faults, and for a record whose
    enrollment is null or zero both [spend_per_student] and
    [revenue_per_student] are null. *)
Theorem derive_metrics_null_enrollment (r : FinancialRecord) :
  (∃ m, derive_metrics r = inr m)
  ∧ (enrollment r = None ∨ enrollment r = Some 0%N →
     derive_metrics r = inr {| spend_per_student := None; revenue_per_student := None |}).
Proof.
  unfold derive_metrics. split.
  - destruct (per_student_no_fault (total_spend r) (enrollment r)) as [s ->].
    destruct (per_student_no_fault (total_revenue r) (enrollment r)) as [v ->].
    by eexists.
  - intros H. by rewrite !per_student_null.
Qed.

(** ** Row limits *)

Section RowLimits.
Variable ilike : str → str → bool.
Variable collate_le : str → str → bool.

Lemma limit_param_bounds given n :
  limit_param given = Some n → (1 ≤ n ≤ 500)%Z.
Proof.
  unfold limit_param, in_bounds. destruct given as [v|]; [|intros [= <-]; lia].
  destruct (bool_decide (1 ≤ v)%Z) eqn:E1; [|done].
  destruct (bool_decide (v ≤ 500)%Z) eqn:E2; [|done].
  intros [= <-]. apply bool_decide_eq_true in E1, E2. lia.
Qed.

Lemma limit_param_accepts v :
  (1 ≤ v ≤ 500)%Z → limit_param (Some v) = Some v.
Proof.
  intros [H1 H2]. unfold limit_param, in_bounds.
  by rewrite !bool_decide_eq_true_2.
Qed.

Lemma limit_param_rejects given :
  limit_param given = None ↔ ∃ v, given = Some v ∧ ¬ (1 ≤ v ≤ 500)%Z.
Proof.
  unfold limit_param, in_bounds. destruct given as [v|].
  - destruct (bool_decide (1 ≤ v)%Z) eqn:E1; destruct (bool_decide (v ≤ 500)%Z) eqn:E2;
      simpl; try apply bool_decide_eq_true in E1; try apply bool_decide_eq_true in E2;
      try apply bool_decide_eq_false in E1; try apply bool_decide_eq_false in E2;
      split; try done; try (intros _; exists v; split; [done|lia]).
    intros (? & [= <-] & ?). lia.
  - split; [done|]. by intros (? & ? & _).
Qed.

Lemma sql_limit_length {A : Type} (n : Z) (l : list A) :
  (0 ≤ n)%Z → (Z.of_nat (length (sql_limit n l)) ≤ n)%Z.
Proof. intros H. unfold sql_limit. rewrite length_take. lia. Qed.

(** C8 (amended): [GET /districts] and [GET /anomalies] cap their
    result at the parameter [limit], which is 100 when absent and is
    accepted only in the range 1 to 500: a request with a limit
    outside the range is refused, and any other request returns at
    most [limit] rows. *)
Theorem listing_endpoints_cap_rows (db : database) (search : option str)
    (year : option Z) (flag : option flag_type) (limit : option Z) :
  limit_param None = Some 100%Z
  ∧ (∀ v, (1 ≤ v ≤ 500)%Z → limit_param (Some v) = Some v)
  ∧ (limit_param limit = None ↔ ∃ v, limit = Some v ∧ ¬ (1 ≤ v ≤ 500)%Z)
  ∧ match limit_param limit with
    | None =>
        list_districts ilike collate_le db search limit = Unprocessable
        ∧ get_anomalies collate_le db year flag limit = Unprocessable
    | Some n =>
        (1 ≤ n ≤ 500)%Z
        ∧ (∃ rows, list_districts ilike collate_le db search limit = Rows rows
                   ∧ (Z.of_nat (length rows) ≤ n)%Z)
        ∧ (get_anomalies collate_le db year flag limit = Unprocessable
           ∨ ∃ rows, get_anomalies collate_le db year flag limit = Rows rows
                     ∧ (Z.of_nat (length rows) ≤ n)%Z)
    end.
Proof.
  split; [done|]. split; [apply limit_param_accepts|].
  split; [apply limit_param_rejects|].
  unfold list_districts, get_anomalies.
  destruct (limit_param limit) as [n|] eqn:E.
  - pose proof (limit_param_bounds _ _ E) as Hn. split; [done|]. split.
    + eexists. split; [done|]. apply sql_limit_length. lia.
    + destruct (year_param year); [right|by left].
      eexists. split; [done|]. apply sql_limit_length. lia.
  - split; [done|]. by destruct (year_param year).
Qed.

End RowLimits.

(** C8, as stated, fails for one endpoint that returns rows:
    [GET /district/{district_number}/summary] has no [limit]
    parameter and returns every row of the district. *)
Lemma district_summary_has_no_cap :
  get_district_summary crowded_db (py "057905") None None
  = Rows (v_finance_summary crowded_db)
  ∧ length (v_finance_summary crowded_db) = 501.
Proof. split; by vm_compute. Qed.

(** ** The natural-language engine *)

Section NLPFacts.
Variable agent_invoke : gmap str value → outcome (gmap str value).


End NLPFacts.


(** * Further properties *)

(** ** District numbers read as numbers *)

Section DistrictNumberValue.
Import PyStr PyStrFacts.

Lemma digits_value_snoc s a :
  digits_value (s ++ [a]) = (10 * digits_value s + (Z.of_nat (code a) - 48))%Z.
Proof. unfold digits_value. by rewrite foldl_app. Qed.

Lemma digits_value_zeros k s :
  digits_value (replicate k zero_char ++ s) = digits_value s.
Proof.
  unfold digits_value. rewrite foldl_app.
  assert (foldl (λ acc a, 10 * acc + (Z.of_nat (code a) - 48))%Z 0%Z
            (replicate k zero_char) = 0%Z) as ->; [|done].
  induction k as [|k IH]; [done|].
  rewrite replicate_S_end, foldl_app, IH. done.
Qed.

Lemma pretty_N_char_digit m :
  (m < 10)%N →
  is_digit (pretty_N_char m) = true
  ∧ (Z.of_nat (code (pretty_N_char m)) - 48)%Z = Z.of_N m.
Proof.
  intros H.
  assert (m = 0 ∨ m = 1 ∨ m = 2 ∨ m = 3 ∨ m = 4 ∨ m = 5
          ∨ m = 6 ∨ m = 7 ∨ m = 8 ∨ m = 9)%N as Hm by lia.
  repeat destruct Hm as [->|Hm]; try subst m; by vm_compute.
Qed.

(** The decimal digits [pretty] writes in front of [s]: they are
    digits, they denote [x], and there are no more of them than [x]
    needs. *)
Lemma pretty_N_go_digits (x : N) (s : string) :
  ∃ d, py (pretty_N_go x s) = d ++ py s
       ∧ forallb is_digit d = true
       ∧ digits_value d = Z.of_N x
       ∧ ((0 < x)%N → d ≠ [] ∧ (10 ^ Z.of_nat (length d) ≤ 10 * Z.of_N x)%Z).
Proof.
  revert s. induction (N.lt_wf_0 x) as [x _ IH]; intros s.
  assert (x = 0 ∨ 0 < x)%N as [->|Hx] by lia.
  - exists []. rewrite pretty_N_go_0. split_and!; [done..|]. intros ?. lia.
  - rewrite pretty_N_go_step by done.
    pose proof (N.div_mod x 10 ltac:(done)) as Hdm.
    pose proof (N.mod_lt x 10 ltac:(done)) as Hm.
    pose proof (N.div_lt x 10 Hx eq_refl) as Hq.
    set (q := (x `div` 10)%N) in *. set (m := (x `mod` 10)%N) in *.
    destruct (IH q Hq (String (pretty_N_char m) s))
      as (d & Hd & Hdig & Hval & Hlen).
    destruct (pretty_N_char_digit m Hm) as [Hc Hcv].
    exists (d ++ [pretty_N_char m]). split_and!.
    + rewrite Hd. unfold py. simpl. by rewrite <- app_assoc.
    + rewrite forallb_app, Hdig. simpl. by rewrite Hc.
    + rewrite digits_value_snoc, Hval, Hcv. lia.
    + intros _. split; [by destruct d|].
      rewrite length_app. simpl.
      replace (Z.of_nat (length d + 1)) with (Z.of_nat (length d) + 1)%Z by lia.
      rewrite Z.pow_add_r, Z.pow_1_r by lia.
      destruct (N.eq_0_gt_0_cases q) as [H0|Hpos].
      * assert (d = []) as ->.
        { destruct d as [|a t]; [done|]. exfalso.
          clear Hlen. revert Hd. rewrite H0, pretty_N_go_0.
          intros Hd%(f_equal length). unfold py in Hd. simpl in Hd.
          rewrite length_app in Hd. simpl in Hd. lia. }
        simpl. lia.
      * destruct (Hlen Hpos) as [_ Hle]. lia.
Qed.

(** [str(z)] for a natural number. *)
Lemma pretty_N_digits (x : N) :
  ∃ d, py (pretty x) = d
       ∧ isdigit d = true
       ∧ digits_value d = Z.of_N x
       ∧ (10 ^ Z.of_nat (length d) ≤ 10 * Z.max 1 (Z.of_N x))%Z.
Proof.
  unfold pretty, pretty_N. case_decide as Hx.
  - subst x. exists (py "0"). split_and!; by vm_compute.
  - destruct (pretty_N_go_digits x "") as (d & Hd & Hdig & Hval & Hlen).
    destruct Hlen as [Hne Hle]; [lia|].
    exists d. unfold py in Hd at 2. simpl in Hd. rewrite app_nil_r in Hd.
    split_and!; [done| |done|lia].
    apply isdecimal_isdigit. destruct d; [done|]. exact Hdig.
Qed.

Lemma clean_digits (x : cell) :
  isna x = false →
  isdigit (str_of x) = true →
  clean_district_number x = Some (zfill 6 (str_of x)).
Proof.
  intros Hna Hd. rewrite clean_district_number_eq, Hna. simpl.
  pose proof (isdigit_forallb _ Hd) as Hall.
  rewrite strip_id;
    [| apply digits_start; auto using digit_not_space
     | apply digits_end; auto using digit_not_space].
  rewrite lstrip_id by (apply digits_start; auto using digit_not_apostrophe).
  by rewrite Hd.
Qed.

(** X1: an integer cell [z >= 0] is cleaned to its decimal digits
    left-padded with zeros: the result is purely numeric, denotes
    [z] again, has at least six digits, and exactly six when
    [z < 10^6]. *)
Theorem clean_district_number_integer (z : Z) :
  (0 ≤ z)%Z →
  ∃ r, clean_district_number (CInt z) = Some r
       ∧ isdigit r = true
       ∧ digits_value r = z
       ∧ 6 ≤ length r
       ∧ ((z < 10 ^ 6)%Z → length r = 6).
Proof.
  intros Hz.
  assert (pretty z = pretty (Z.to_N z)) as Hp.
  { destruct z as [|p|p]; [done|done|lia]. }
  destruct (pretty_N_digits (Z.to_N z)) as (d & Hd & Hdig & Hval & Hlen).
  rewrite <- Hp in Hd.
  exists (zfill 6 d).
  rewrite (clean_digits (CInt z)); [|done|simpl; by rewrite Hd].
  simpl. rewrite Hd. split_and!; [done|by apply zfill_isdigit| | |].
  - rewrite zfill_digits, digits_value_zeros by done. lia.
  - rewrite zfill_length by done. lia.
  - intros Hsmall. rewrite zfill_length by done.
    assert (length d ≤ 6); [|lia].
    destruct (decide (length d ≤ 6)) as [|Hbig]; [done|exfalso].
    assert (10 ^ 7 ≤ 10 ^ Z.of_nat (length d))%Z
      by (apply Z.pow_le_mono_r; lia).
    lia.
Qed.

Lemma clean_district_number_integer_witness :
  (0 ≤ 57905)%Z
  ∧ ∃ r, clean_district_number (CInt 57905) = Some r
         ∧ isdigit r = true
         ∧ digits_value r = 57905%Z
         ∧ 6 ≤ length r
         ∧ ((57905 < 10 ^ 6)%Z → length r = 6).
Proof.
  split; [lia|]. apply (clean_district_number_integer 57905). lia.
Defined.

(** X2: on a text made of digits the zero padding changes neither
    the number the text denotes nor its being numeric; the result
    has six characters, or as many as the text when it has more. *)
Theorem clean_district_number_keeps_value (s : str) :
  isdigit s = true →
  ∃ r, clean_district_number (CStr s) = Some r
       ∧ isdigit r = true
       ∧ digits_value r = digits_value s
       ∧ length r = 6 `max` length s.
Proof.
  intros Hd. exists (zfill 6 s).
  rewrite (clean_digits (CStr s)) by done. split_and!; [done| | |].
  - by apply zfill_isdigit.
  - by rewrite zfill_digits, digits_value_zeros.
  - by apply zfill_length.
Qed.

Lemma clean_district_number_keeps_value_witness :
  isdigit (py "1902") = true
  ∧ ∃ r, clean_district_number (CStr (py "1902")) = Some r
         ∧ isdigit r = true
         ∧ digits_value r = digits_value (py "1902")
         ∧ length r = 6 `max` length (py "1902").
Proof.
  split; [reflexivity|].
  apply (clean_district_number_keeps_value (py "1902")). reflexivity.
Defined.

End DistrictNumberValue.

(** ** The shape of canonical names *)

Section CanonicalNames.
Import PyStr PyStrFacts Re ReFacts.

(** [to_snake_case] without its two redundant steps. *)
Lemma to_snake_case_unfold (name : str) :
  to_snake_case name
  = prefix 60 (strip (is_char underscore) (sub_nonalnum (lower name))).
Proof.
  unfold to_snake_case. f_equal.
  rewrite sub_underscores_redundant, lower_strip.
  destruct (strip_split is_space (lower name)) as (l & r & Hs & Hl & Hr & _).
  rewrite Hs at 2. symmetry.
  apply strip_sub_nonalnum_around; by apply spaces_nonalnum.
Qed.

Lemma to_snake_case_chars (name : str) a :
  a ∈ to_snake_case name → a = underscore ∨ is_digit a || is_lower a = true.
Proof.
  rewrite to_snake_case_unfold.
  intros [Hu|[Hin Ha]]%prefix_elem%strip_elem%sub_nonalnum_from_elem; [by left|].
  right. unfold lower in Hin.
  apply list_elem_of_In, in_map_iff in Hin as (a0 & <- & _).
  by apply lower_char_alnum.
Qed.

Lemma adjacent_underscores_app_l s t :
  adjacent_underscores (s ++ t) = false → adjacent_underscores s = false.
Proof.
  induction s as [|a [|b u] IH]; [done..|].
  change ((a :: b :: u) ++ t) with (a :: b :: (u ++ t)).
  change (adjacent_underscores (a :: b :: u ++ t))
    with (is_char underscore a && is_char underscore b
          || adjacent_underscores ((b :: u) ++ t)).
  change (adjacent_underscores (a :: b :: u))
    with (is_char underscore a && is_char underscore b
          || adjacent_underscores (b :: u)).
  intros [-> H]%orb_false_iff. simpl. by apply IH.
Qed.

Lemma adjacent_underscores_app_r s t :
  adjacent_underscores (s ++ t) = false → adjacent_underscores t = false.
Proof.
  induction s as [|a s IH]; [done|]. intros H. apply IH.
  change ((a :: s) ++ t) with (a :: (s ++ t)) in H.
  destruct (s ++ t) as [|b u]; [done|].
  change (adjacent_underscores (a :: b :: u))
    with (is_char underscore a && is_char underscore b
          || adjacent_underscores (b :: u)) in H.
  by apply orb_false_iff in H as [_ H].
Qed.

Lemma sub_nonalnum_from_adjacent b s :
  adjacent_underscores (sub_nonalnum_from b s) = false.
Proof.
  revert b. induction s as [|a t IH]; intros b; simpl; [done|].
  destruct (is_alnum a) eqn:E.
  - specialize (IH false). destruct (sub_nonalnum_from false t) as [|c u]; [done|].
    change (adjacent_underscores (a :: c :: u))
      with (is_char underscore a && is_char underscore c
            || adjacent_underscores (c :: u)).
    by rewrite (alnum_not_underscore a E), IH.
  - destruct b; [apply IH|].
    pose proof (sub_nonalnum_in_run_starts t) as Hs. specialize (IH true).
    destruct (sub_nonalnum_from true t) as [|c u]; [done|].
    change (adjacent_underscores (underscore :: c :: u))
      with (is_char underscore underscore && is_char underscore c
            || adjacent_underscores (c :: u)).
    simpl in Hs. by rewrite Hs, IH, andb_false_r.
Qed.

Lemma starts_with_prefix p n s :
  starts_with p s = false → starts_with p (prefix n s) = false.
Proof. unfold prefix. by destruct n, s. Qed.

Lemma to_snake_case_no_leading_or_double (name : str) :
  starts_with (is_char underscore) (to_snake_case name) = false
  ∧ adjacent_underscores (to_snake_case name) = false.
Proof.
  rewrite to_snake_case_unfold. split.
  - apply starts_with_prefix, strip_starts.
  - set (t := sub_nonalnum (lower name)).
    assert (adjacent_underscores (strip (is_char underscore) t) = false) as H.
    { destruct (strip_split (is_char underscore) t) as (l & r & Hs & _).
      pose proof (sub_nonalnum_from_adjacent false (lower name)) as Ha.
      fold (sub_nonalnum (lower name)) in Ha. fold t in Ha. rewrite Hs in Ha.
      by apply adjacent_underscores_app_r, adjacent_underscores_app_l in Ha. }
    unfold prefix. rewrite <- (take_drop 60 (strip _ t)) in H.
    by apply adjacent_underscores_app_l in H.
Qed.

(** X3: a canonical name never starts with an underscore and never
    holds two underscores in a row. *)
Theorem to_snake_case_shape (name : str) :
  starts_with (is_char underscore) (to_snake_case name) = false
  ∧ adjacent_underscores (to_snake_case name) = false.
Proof. apply to_snake_case_no_leading_or_double. Qed.

(** *** Names without letters or digits *)

Lemma lower_char_is_alnum a : is_alnum (lower_char a) = is_alnum a.
Proof. by_char a. Qed.

Lemma no_alnum_lower s : no_alnum (lower s) = no_alnum s.
Proof.
  unfold no_alnum, lower. induction s as [|a t IH]; simpl; [done|].
  by rewrite lower_char_is_alnum, IH.
Qed.

Lemma sub_nonalnum_from_keeps b s a :
  a ∈ s → is_alnum a = true → a ∈ sub_nonalnum_from b s.
Proof.
  revert b. induction s as [|c t IH]; intros b; [by intros ?%elem_of_nil|].
  intros [->|Hin]%elem_of_cons Ha; simpl.
  - rewrite Ha. by left.
  - destruct (is_alnum c); [right; by apply IH|].
    destruct b; [by apply IH|right; by apply IH].
Qed.

Lemma strip_keeps p s a : a ∈ s → p a = false → a ∈ strip p s.
Proof.
  intros Hin Hp. destruct (strip_split p s) as (l & r & Hs & Hl & Hr & _).
  rewrite Hs in Hin. rewrite forallb_forall in Hl, Hr.
  apply elem_of_app in Hin as [Hin|Hin].
  { apply list_elem_of_In, Hl in Hin. congruence. }
  apply elem_of_app in Hin as [Hin|Hin]; [done|].
  apply list_elem_of_In, Hr in Hin. congruence.
Qed.

Lemma forallb_false {A : Type} (f : A → bool) (l : list A) :
  forallb f l = false → ∃ a, In a l ∧ f a = false.
Proof.
  induction l as [|a t IH]; simpl; [done|].
  destruct (f a) eqn:E; simpl.
  - intros (b & Hb & Hf)%IH. eauto.
  - intros _. eauto.
Qed.

(** X4: for a raw name whose characters are code points below 256,
    the canonical name is empty exactly when the raw name holds none
    of the letters [a-z], [A-Z] and none of the digits [0-9]. *)
Theorem to_snake_case_empty (name : str) :
  to_snake_case name = [] ↔ no_alnum name = true.
Proof.
  rewrite to_snake_case_unfold. split.
  - intros He. destruct (no_alnum name) eqn:En; [done|exfalso].
    unfold no_alnum in En.
    apply forallb_false in En as (a & Hin & Ha).
    apply negb_false_iff in Ha.
    assert (lower_char a ∈ strip (is_char underscore) (sub_nonalnum (lower name)))
      as Hkeep.
    { apply strip_keeps.
      - apply sub_nonalnum_from_keeps; [|by rewrite lower_char_is_alnum].
        unfold lower. apply list_elem_of_In, in_map. exact Hin.
      - apply alnum_not_underscore. by rewrite lower_char_is_alnum. }
    unfold prefix in He.
    destruct (strip (is_char underscore) (sub_nonalnum (lower name))); [|done].
    by apply elem_of_nil in Hkeep.
  - intros Hn. rewrite <- no_alnum_lower in Hn.
    unfold strip. rewrite lstrip_all; [done|].
    by apply sub_nonalnum_all.
Qed.

End CanonicalNames.

(** ** Canonical names of canonical names *)

Section CanonicalAgain.
Import PyStr PyStrFacts Re ReFacts.

Lemma name_char_not_space a :
  a = underscore ∨ is_digit a || is_lower a = true → is_space a = false.
Proof. intros [->|H]; [done|]. revert H. by_char a. Qed.

Lemma name_char_lower a :
  a = underscore ∨ is_digit a || is_lower a = true → lower_char a = a.
Proof. intros [->|H]; [done|]. revert H. by_char a. Qed.

Lemma name_char_alnum a :
  a = underscore ∨ is_digit a || is_lower a = true →
  is_alnum a = false → a = underscore.
Proof.
  intros [->|H]; [done|]. unfold is_alnum. rewrite H. done.
Qed.

Lemma class_free_ends p (t : str) :
  (∀ a, a ∈ t → p a = false) →
  starts_with p t = false ∧ ends_with p t = false.
Proof.
  intros H. split.
  - destruct t as [|a u]; [done|]. apply H. by left.
  - unfold ends_with. destruct (rev t) as [|a u] eqn:E; [done|].
    apply H. apply list_elem_of_In, in_rev. rewrite E. by left.
Qed.

(** On a string of digits, lower-case letters and single
    underscores the substitution changes nothing. *)
Lemma sub_nonalnum_from_fixed b (t : str) :
  (∀ a, a ∈ t → a = underscore ∨ is_digit a || is_lower a = true) →
  adjacent_underscores t = false →
  (b = true → starts_with (is_char underscore) t = false) →
  sub_nonalnum_from b t = t.
Proof.
  revert b. induction t as [|a u IH]; intros b Hc Hadj Hb; [done|]. simpl.
  assert (adjacent_underscores u = false) as Hadj'
    by (apply (adjacent_underscores_app_r [a] u); exact Hadj).
  assert (∀ c, c ∈ u → c = underscore ∨ is_digit c || is_lower c = true) as Hc'
    by (intros c ?; apply Hc; by right).
  destruct (is_alnum a) eqn:Ea.
  - f_equal. by apply IH.
  - assert (a = underscore) as -> by (apply name_char_alnum; [apply Hc; by left|done]).
    destruct b; [by specialize (Hb eq_refl)|].
    f_equal. apply IH; [done..|]. intros _.
    destruct u as [|c v]; [done|].
    change (adjacent_underscores (underscore :: c :: v))
      with (is_char underscore underscore && is_char underscore c
            || adjacent_underscores (c :: v)) in Hadj.
    apply orb_false_iff in Hadj as [Hadj _]. exact Hadj.
Qed.

Lemma strip_length p s : length (strip p s) ≤ length s.
Proof.
  destruct (strip_split p s) as (l & r & Hs & _).
  rewrite Hs at 2. rewrite !length_app. lia.
Qed.

(** The canonical name of a canonical name: only the underscore a
    truncation may have left at the end goes. *)
Lemma to_snake_case_again (name : str) :
  to_snake_case (to_snake_case name)
  = strip (is_char underscore) (to_snake_case name).
Proof.
  set (t := to_snake_case name).
  assert (∀ a, a ∈ t → a = underscore ∨ is_digit a || is_lower a = true) as Hc
    by (intros a; apply to_snake_case_chars).
  destruct (to_snake_case_no_leading_or_double name) as [Hst Hadj].
  fold t in Hst, Hadj.
  assert (length t ≤ 60) as Hlen
    by (subst t; unfold to_snake_case, prefix; rewrite length_take; lia).
  rewrite (to_snake_case_unfold t).
  assert (lower t = t) as ->.
  { unfold lower. rewrite <- (map_id t) at 2. apply map_ext_in.
    intros a Ha%list_elem_of_In. by apply name_char_lower, Hc. }
  unfold sub_nonalnum. rewrite sub_nonalnum_from_fixed by done.
  unfold prefix. apply take_ge.
  pose proof (strip_length (is_char underscore) t). lia.
Qed.

(** X5: canonicalization is idempotent on a name exactly when the
    canonical name does not end with an underscore (the cut at 60
    characters can leave one). *)
Theorem to_snake_case_idempotent (name : str) :
  to_snake_case (to_snake_case name) = to_snake_case name
  ↔ ends_with (is_char underscore) (to_snake_case name) = false.
Proof.
  rewrite to_snake_case_again. split.
  - intros <-. apply strip_ends.
  - intros He. apply strip_id; [|done]. apply to_snake_case_no_leading_or_double.
Qed.

(** A name that the cut leaves with an underscore at the end. *)
Example to_snake_case_cut_leaves_underscore :
  let name := replicate 59 (ascii_of_nat 97) ++ py " b" in
  to_snake_case name = replicate 59 (ascii_of_nat 97) ++ py "_"
  ∧ to_snake_case (to_snake_case name) = replicate 59 (ascii_of_nat 97).
Proof. split; by vm_compute. Qed.

End CanonicalAgain.

(** ** Names that do not collide *)

Section NoCollision.

Lemma fresh_name_free (seen : gset str) (base : str) :
  base ∉ seen → fresh_name seen base = Some base.
Proof.
  intros H. unfold fresh_name. simpl. by rewrite bool_decide_eq_false_2.
Qed.

Lemma rename_loop_no_collision (cols : list str) (seen : gset str)
    (m m' : gmap str str) :
  NoDup (map to_snake_case cols) →
  (∀ c, c ∈ cols → to_snake_case c ∉ seen) →
  rename_loop cols seen m = Ok m' →
  ∀ c, c ∈ cols → m' !! c = Some (to_snake_case c).
Proof.
  revert seen m. induction cols as [|col rest IH]; intros seen m Hnd Hfree;
    [by intros _ c ?%elem_of_nil|].
  simpl in Hnd. apply NoDup_cons in Hnd as [Hcol Hnd]. simpl.
  rewrite fresh_name_free by (apply Hfree; by left).
  intros Hloop c Hc.
  destruct (decide (c ∈ rest)) as [Hrest|Hrest].
  - eapply IH; [done| |done|done].
    intros c' Hc'. apply not_elem_of_union. split; [|apply Hfree; by right].
    intros Heq%elem_of_singleton. apply Hcol. rewrite <- Heq.
    apply list_elem_of_In, in_map. by apply list_elem_of_In.
  - apply elem_of_cons in Hc as [->|Hc]; [|done].
    by rewrite (rename_loop_other _ _ _ _ _ Hrest Hloop), lookup_insert_eq.
Qed.

(** X6: when the canonical names of the columns are pairwise
    distinct, every column gets its canonical name and no suffix is
    appended. *)
Theorem final_names_without_collision (cols : list str) :
  NoDup (map to_snake_case cols) →
  final_names cols = Ok (map to_snake_case cols).
Proof.
  intros Hnd. unfold final_names, column_mapping.
  destruct (rename_loop_total cols ∅ ∅) as [m Hm]. rewrite Hm. simpl. f_equal.
  apply map_ext_in. intros c Hc%list_elem_of_In. unfold renamed.
  by rewrite (rename_loop_no_collision cols ∅ ∅ m Hnd (λ _ _, not_elem_of_empty _) Hm c Hc).
Qed.

Lemma final_names_without_collision_witness :
  NoDup (map to_snake_case [py "DISTRICT NUMBER"; py "Year"; py "Total Revenue"])
  ∧ final_names [py "DISTRICT NUMBER"; py "Year"; py "Total Revenue"]
    = Ok (map to_snake_case [py "DISTRICT NUMBER"; py "Year"; py "Total Revenue"]).
Proof.
  assert (NoDup (map to_snake_case [py "DISTRICT NUMBER"; py "Year"; py "Total Revenue"]))
    as Hnd.
  { apply (bool_decide_unpack _). vm_compute. exact I. }
  split; [exact Hnd|].
  apply (final_names_without_collision
           [py "DISTRICT NUMBER"; py "Year"; py "Total Revenue"] Hnd).
Defined.

End NoCollision.

(** ** What [prepare_data] returns and how it fails *)

Lemma traverse_Ok_inv {A B : Type} (f : A → result B) (l : list A) (bs : list B) :
  traverse f l = Ok bs → Forall2 (λ a b, f a = Ok b) l bs.
Proof.
  revert bs. induction l as [|a t IH]; intros bs; simpl.
  - intros [= <-]. constructor.
  - destruct (f a) as [b|e] eqn:Ea; [|done]. simpl.
    destruct (traverse f t) as [bs'|e] eqn:Et; [|done]. simpl.
    intros [= <-]. constructor; [done|]. by apply IH.
Qed.

Lemma traverse_Err_inv {A B : Type} (f : A → result B) (l : list A) (e : error) :
  traverse f l = Err e → ∃ a, a ∈ l ∧ f a = Err e.
Proof.
  induction l as [|a t IH]; simpl; [done|].
  destruct (f a) as [b|e'] eqn:Ea; simpl.
  - destruct (traverse f t) as [bs'|e'] eqn:Et; [done|]. simpl.
    intros [= ->]. destruct IH as (a' & Hin & Ha'); [done|].
    exists a'. split; [by right|done].
  - intros [= ->]. exists a. split; [by left|done].
Qed.

Section PrepareDataResults.
Variable parse_number : cell → option number.

Lemma convert_column_name (c : column) (tc : typed_column) :
  convert_column parse_number c = Ok tc → typed_name tc = col_name c.
Proof.
  unfold convert_column.
  destruct (_ || _); [by intros [= <-]|].
  destruct (bool_decide (col_name c = py "year")).
  - destruct (astype_int16 _); [|done]. by intros [= <-].
  - destruct (mostly_numeric _); by intros [= <-].
Qed.

Lemma int16_of_value (v : option number) (z : option Z) :
  int16_of v = Ok z →
  match v with
  | None => z = None
  | Some q => ∃ n, z = Some n ∧ q = Q2Qc (inject_Z n) ∧ (-32768 ≤ n ≤ 32767)%Z
  end.
Proof.
  destruct v as [[q|b]|]; simpl; [|done|by intros [= <-]].
  destruct (bool_decide (Qden q = 1%positive)) eqn:Ed; [|done].
  destruct (bool_decide (-32768 ≤ Qnum q)%Z) eqn:E1; [|done].
  destruct (bool_decide (Qnum q ≤ 32767)%Z) eqn:E2; [|done].
  simpl. intros [= <-].
  apply bool_decide_eq_true in Ed, E1, E2.
  exists (Qnum q). split; [done|]. split; [|lia]. f_equal.
  apply Qc_is_canon. simpl. rewrite Qred_correct.
  destruct q as [[n d] Hq]. simpl in *. subst d. done.
Qed.

Lemma int16_of_error (v : option number) (e : error) :
  int16_of v = Err e → e = CastError.
Proof.
  destruct v as [[q|b]|]; simpl; [|by intros [= <-]|done].
  destruct (_ && _); [done|]. by intros [= <-].
Qed.

(** What a conversion that fails has met. *)
Lemma convert_column_error (c : column) (e : error) :
  convert_column parse_number c = Err e →
  e = CastError ∧ col_name c = py "year"
  ∧ ∃ x, x ∈ col_data c ∧ castable parse_number x = false.
Proof.
  unfold convert_column.
  destruct (_ || _); [done|].
  destruct (decide (col_name c = py "year")) as [Ey|Ey];
    [rewrite (bool_decide_eq_true_2 _ Ey)|rewrite (bool_decide_eq_false_2 _ Ey)].
  - destruct (astype_int16 _) as [l|e'] eqn:Ea; [done|]. simpl. intros [= ->].
    unfold astype_int16 in Ea. rewrite traverse_map in Ea.
    apply traverse_Err_inv in Ea as (x & Hx & Hex).
    split; [by eapply int16_of_error|]. split; [done|].
    exists x. split; [done|]. unfold castable. by rewrite Hex.
  - by destruct (mostly_numeric _).
Qed.

(** The columns of the frame [prepare_data] converts, one by one. *)
Lemma prepare_data_unfold (df : frame) :
  has_column (py "DISTRICT NUMBER") df = true →
  ∃ m, rename_loop (map col_name df) ∅ ∅ = Ok m
       ∧ prepare_data parse_number df
         = traverse (λ c, convert_column parse_number
                            (Column (renamed m (col_name c)) (col_data (cleaned c)))) df.
Proof.
  intros Hdn. unfold prepare_data. rewrite (apply_column_cleaned df Hdn). simpl.
  unfold column_mapping.
  assert (map col_name (map cleaned df) = map col_name df) as ->.
  { rewrite map_map. apply map_ext. intros c. apply cleaned_name. }
  destruct (rename_loop_total (map col_name df) ∅ ∅) as [m Hm].
  exists m. split; [done|]. rewrite Hm. simpl.
  unfold rename_columns. rewrite !traverse_map.
  clear Hm Hdn. induction df as [|c t IH]; simpl; [done|].
  by rewrite cleaned_name, IH.
Qed.

Lemma prepare_data_has_column (df : frame) :
  has_column (py "DISTRICT NUMBER") df = false →
  prepare_data parse_number df = Err (KeyError (py "DISTRICT NUMBER")).
Proof.
  intros H. unfold prepare_data. by rewrite (apply_column_missing df H).
Qed.

(** The final name [year] is given only to a column whose canonical
    name is [year]. *)
Lemma renamed_year (names : list str) (m : gmap str str) (c : column) :
  rename_loop names ∅ ∅ = Ok m →
  col_name c ∈ names →
  renamed m (col_name c) = py "year" →
  to_snake_case (col_name c) = py "year".
Proof.
  intros Hm Hin Hname.
  destruct (rename_loop_shape names ∅ ∅ m (col_name c) Hm Hin)
    as (name & Hlook & Hshape).
  unfold renamed in Hname. rewrite Hlook in Hname. simpl in Hname.
  by apply (year_is_canonical _ _ Hname Hshape).
Qed.

Lemma col_name_elem (df : frame) (c : column) :
  c ∈ df → col_name c ∈ map col_name df.
Proof. intros Hc. apply list_elem_of_In, in_map. by apply list_elem_of_In. Qed.

End PrepareDataResults.

Section PrepareDataTheorems.
Variable parse_number : cell → option number.

(** X7: the frame [prepare_data] returns has one column for each
    column of the sheet, in the same order, and their names are the
    final names the renaming loop gives to the header. *)
Theorem prepare_data_names (df : frame) (out : list typed_column) :
  prepare_data parse_number df = Ok out →
  length out = length df
  ∧ final_names (map col_name df) = Ok (map typed_name out).
Proof.
  intros Hout.
  destruct (has_column (py "DISTRICT NUMBER") df) eqn:Hdn;
    [|by rewrite (prepare_data_has_column parse_number df Hdn) in Hout].
  destruct (prepare_data_unfold parse_number df Hdn) as (m & Hm & Heq).
  rewrite Heq in Hout. apply traverse_Ok_inv in Hout.
  split; [symmetry; by eapply Forall2_length|].
  unfold final_names, column_mapping. rewrite Hm. simpl. f_equal.
  clear Hm Heq Hdn. induction Hout as [|c tc t ts Hc _ IH]; simpl; [done|].
  apply convert_column_name in Hc. simpl in Hc. by rewrite Hc, IH.
Qed.

(** The ways [prepare_data] fails on a frame of text labels. *)
Lemma prepare_data_failure (df : frame) (e : error) :
  prepare_data parse_number df = Err e →
  (e = KeyError (py "DISTRICT NUMBER")
   ∧ has_column (py "DISTRICT NUMBER") df = false)
  ∨ (e = CastError
     ∧ has_column (py "DISTRICT NUMBER") df = true
     ∧ ∃ c x, c ∈ df ∧ to_snake_case (col_name c) = py "year"
              ∧ x ∈ col_data c ∧ castable parse_number x = false).
Proof.
  intros Herr.
  destruct (has_column (py "DISTRICT NUMBER") df) eqn:Hdn.
  - right. destruct (prepare_data_unfold parse_number df Hdn) as (m & Hm & Heq).
    rewrite Heq in Herr. apply traverse_Err_inv in Herr as (c & Hc & Hconv).
    apply convert_column_error in Hconv as (-> & Hname & x & Hx & Hcast).
    simpl in Hname, Hx.
    pose proof (renamed_year _ m c Hm (col_name_elem df c Hc) Hname) as Hbase.
    rewrite (cleaned_year c Hbase) in Hx.
    split; [done|]. split; [done|]. by exists c, x.
  - left. rewrite (prepare_data_has_column parse_number df Hdn) in Herr.
    by injection Herr as <-.
Qed.

(** X8: [prepare_data] is left by an exception in three ways only:
    by [KeyError] when the sheet has no column labelled
    [DISTRICT NUMBER]; else by [AttributeError] when a label of the
    sheet is not a text; else by the exception of [astype("Int16")],
    when a column whose canonical name is [year] holds a value that
    parses to an infinity or to a number which is not a whole number
    in the 16-bit range. *)
Theorem prepare_sheet_failure (sh : sheet) (e : error) :
  prepare_sheet parse_number sh = Err e →
  (e = KeyError (py "DISTRICT NUMBER")
   ∧ LText (py "DISTRICT NUMBER") ∉ map sheet_label sh)
  ∨ (e = AttributeError
     ∧ LText (py "DISTRICT NUMBER") ∈ map sheet_label sh
     ∧ all_text sh = false)
  ∨ (e = CastError
     ∧ LText (py "DISTRICT NUMBER") ∈ map sheet_label sh
     ∧ all_text sh = true
     ∧ ∃ c s x, c ∈ sh ∧ sheet_label c = LText s ∧ to_snake_case s = py "year"
                ∧ x ∈ sheet_data c ∧ castable parse_number x = false).
Proof.
  unfold prepare_sheet. case_bool_decide as Hdn; [|intros [= <-]; by left].
  destruct (traverse text_column sh) as [df|e'] eqn:Hdf; simpl.
  - intros Herr. right. right. apply text_columns_Ok in Hdf as [Htext HF].
    apply prepare_data_failure in Herr as [[-> Hno]|(-> & _ & d & x & Hd & Hy & Hx & Hc)].
    + apply (same_column_has_column sh df) in Hdn; [congruence|done].
    + destruct (same_column_elem sh df d HF Hd) as (c & Hc' & Hl & Hdata).
      split; [done|]. split; [done|]. split; [done|].
      exists c, (col_name d), x. rewrite Hdata. done.
  - intros [= ->]. right. left.
    apply text_columns_Err in Hdf as (-> & c & z & Hc & Hz).
    split; [done|]. split; [done|].
    destruct (all_text sh) eqn:Et; [|done].
    apply text_columns_all_text in Et as [df Hdf].
    apply text_columns_Ok in Hdf as [_ HF].
    destruct (list_elem_of_lookup_1 _ _ Hc) as [i Hi].
    destruct (Forall2_lookup_l _ _ _ _ _ HF Hi) as (d & _ & Hl & _). congruence.
Qed.

(** X9: in the frame [prepare_data] returns, a column named [year]
    is a nullable 16-bit column, and each of its rows is null when
    the year of the sheet does not parse and is otherwise the whole
    number, within the 16-bit range, that the year parses to. *)
Theorem prepare_data_year_values (df : frame) (out : list typed_column) :
  prepare_data parse_number df = Ok out →
  Forall2
    (λ c tc,
       typed_name tc = py "year" →
       ∃ l, typed_data tc = Int16 l
            ∧ Forall2
                (λ x z,
                   match to_numeric parse_number x with
                   | None => z = None
                   | Some q =>
                       ∃ n, z = Some n ∧ q = Q2Qc (inject_Z n)
                            ∧ (-32768 ≤ n ≤ 32767)%Z
                   end)
                (col_data c) l)
    df out.
Proof.
  intros Hout.
  destruct (has_column (py "DISTRICT NUMBER") df) eqn:Hdn;
    [|by rewrite (prepare_data_has_column parse_number df Hdn) in Hout].
  destruct (prepare_data_unfold parse_number df Hdn) as (m & Hm & Heq).
  rewrite Heq in Hout. apply traverse_Ok_inv in Hout.
  apply Forall2_same_length_lookup_2; [by eapply Forall2_length|].
  intros i c tc Hc Htc Hy.
  pose proof (Forall2_lookup_lr _ _ _ _ _ _ Hout Hc Htc) as Hconv. simpl in Hconv.
  pose proof (convert_column_name _ _ _ Hconv) as Hn. simpl in Hn.
  rewrite Hy in Hn. symmetry in Hn.
  assert (c ∈ df) as Hin by (apply list_elem_of_lookup; eauto).
  pose proof (renamed_year _ m c Hm (col_name_elem df c Hin) Hn) as Hbase.
  rewrite Hn, (cleaned_year c Hbase) in Hconv.
  unfold convert_column in Hconv. simpl in Hconv.
  replace (bool_decide (py "year" = py "district_number")
           || bool_decide (py "year" = py "district_name")) with false in Hconv
    by by vm_compute.
  destruct (astype_int16 _) as [l|] eqn:El; [|done]. simpl in Hconv.
  injection Hconv as <-. exists l. split; [done|].
  unfold astype_int16 in El. rewrite traverse_map in El.
  apply traverse_Ok_inv in El.
  eapply Forall2_impl; [exact El|]. intros x z Hxz.
  by apply int16_of_value in Hxz.
Qed.

End PrepareDataTheorems.

Lemma prepare_data_names_witness :
  prepare_data parse_integer sheet_pair = Ok sheet_pair_prepared
  ∧ length sheet_pair_prepared = length sheet_pair
  ∧ final_names (map col_name sheet_pair) = Ok (map typed_name sheet_pair_prepared).
Proof.
  assert (prepare_data parse_integer sheet_pair = Ok sheet_pair_prepared) as H
    by by vm_compute.
  split; [exact H|].
  exact (prepare_data_names parse_integer sheet_pair sheet_pair_prepared H).
Defined.

Lemma prepare_sheet_failure_witness :
  prepare_sheet parse_integer sheet_with_number_label = Err AttributeError
  ∧ ((AttributeError = KeyError (py "DISTRICT NUMBER")
      ∧ LText (py "DISTRICT NUMBER") ∉ map sheet_label sheet_with_number_label)
     ∨ (AttributeError = AttributeError
        ∧ LText (py "DISTRICT NUMBER") ∈ map sheet_label sheet_with_number_label
        ∧ all_text sheet_with_number_label = false)
     ∨ (AttributeError = CastError
        ∧ LText (py "DISTRICT NUMBER") ∈ map sheet_label sheet_with_number_label
        ∧ all_text sheet_with_number_label = true
        ∧ ∃ c s x, c ∈ sheet_with_number_label ∧ sheet_label c = LText s
                   ∧ to_snake_case s = py "year"
                   ∧ x ∈ sheet_data c ∧ castable parse_integer x = false)).
Proof.
  assert (prepare_sheet parse_integer sheet_with_number_label = Err AttributeError) as H
    by by vm_compute.
  split; [exact H|].
  exact (prepare_sheet_failure parse_integer sheet_with_number_label AttributeError H).
Defined.

Lemma prepare_data_year_values_witness :
  ∃ out,
    prepare_data parse_integer sheet_ok = Ok out
    ∧ Forall2
        (λ c tc,
           typed_name tc = py "year" →
           ∃ l, typed_data tc = Int16 l
                ∧ Forall2
                    (λ x z,
                       match to_numeric parse_integer x with
                       | None => z = None
                       | Some q =>
                           ∃ n, z = Some n ∧ q = Q2Qc (inject_Z n)
                                ∧ (-32768 ≤ n ≤ 32767)%Z
                       end)
                    (col_data c) l)
        sheet_ok out.
Proof.
  destruct (prepare_data parse_integer sheet_ok) as [out|e] eqn:E;
    [|by vm_compute in E].
  exists out. split; [done|].
  exact (prepare_data_year_values parse_integer sheet_ok out E).
Defined.

(** ** The data dictionary *)

Section DictionaryFacts.
Variable dtype_name : series → str.

Lemma series_values_length (s : series) :
  length (series_values s) = series_length s.
Proof. destruct s; simpl; apply length_map. Qed.

Lemma counts_add_up (s : series) :
  non_null_count s + null_count s = series_length s.
Proof.
  unfold non_null_count, null_count. rewrite <- series_values_length.
  unfold notna. induction (series_values s) as [|[v|] t IH]; simpl; [done|..].
  all: repeat first [rewrite filter_cons_True by done
                    |rewrite filter_cons_False by done];
    simpl; lia.
Qed.

(** The guard [notna().any()] keeps [iloc[0]] away from an empty
    series. *)
Lemma sample_value_head (s : series) :
  sample_value s = Some (head (dropna s)).
Proof.
  unfold sample_value, dropna, notna, iloc0.
  induction (series_values s) as [|[v|] t IH]; simpl; [done|done|].
  exact IH.
Qed.

Lemma head_dropna_None (s : series) :
  head (dropna s) = None ↔ non_null_count s = 0.
Proof.
  unfold dropna, non_null_count, notna.
  induction (series_values s) as [|[v|] t IH]; simpl; [done|..].
  - rewrite ?filter_cons_True by done. simpl. split; [done|lia].
  - by rewrite ?filter_cons_False by done.
Qed.

(** X10: the data dictionary is always built ([iloc[0]] never
    raises); it has one row per column, in order, with the name of
    the column; the two counts of a row add up to the number of rows
    of the frame column; the sample is the first value that is not
    null, and there is none exactly when the non-null count is 0. *)
Theorem data_dictionary_rows (df : list typed_column) :
  ∃ rows,
    data_dictionary dtype_name df = Some rows
    ∧ Forall2
        (λ c row,
           dict_column_name row = typed_name c
           ∧ dict_non_null_count row + dict_null_count row
             = series_length (typed_data c)
           ∧ dict_sample_value row = head (dropna (typed_data c))
           ∧ (dict_sample_value row = None ↔ dict_non_null_count row = 0))
        df rows.
Proof.
  unfold data_dictionary.
  induction df as [|c t (rows & Hrows & HR)].
  - exists []. split; [done|constructor].
  - eexists (_ :: rows). split.
    + apply mapM_Some. constructor.
      * rewrite sample_value_head. simpl. reflexivity.
      * by apply mapM_Some.
    + constructor; [|done]. simpl. split_and!; [done| |done|].
      * apply counts_add_up.
      * apply head_dropna_None.
Qed.

End DictionaryFacts.

(** ** Orders and filters of the query surface *)

Section Ordering.
Context {A : Type} (le : A → A → bool).

Lemma insert_by_perm (x : A) (l : list A) : insert_by le x l ≡ₚ x :: l.
Proof.
  induction l as [|y t IH]; simpl; [done|].
  destruct (le x y); [done|]. rewrite IH. apply perm_swap.
Qed.

Lemma order_by_perm (l : list A) : order_by le l ≡ₚ l.
Proof.
  unfold order_by. induction l as [|x t IH]; simpl; [done|].
  by rewrite insert_by_perm, IH.
Qed.

Hypothesis le_total : ∀ x y, le x y = true ∨ le y x = true.

Lemma insert_by_sorted (x : A) (l : list A) :
  Sorted (λ a b, le a b = true) l → Sorted (λ a b, le a b = true) (insert_by le x l).
Proof.
  induction l as [|y t IH]; intros Hs; simpl.
  - by repeat constructor.
  - destruct (le x y) eqn:E.
    + constructor; [done|]. by constructor.
    + apply Sorted_inv in Hs as [Hs Hhd].
      constructor; [by apply IH|].
      destruct t as [|z u]; simpl.
      * constructor. destruct (le_total x y); congruence.
      * destruct (le x z).
        -- constructor. destruct (le_total x y); congruence.
        -- constructor. by apply HdRel_inv in Hhd.
Qed.

Lemma order_by_sorted (l : list A) : Sorted (λ a b, le a b = true) (order_by le l).
Proof.
  unfold order_by. induction l as [|x t IH]; simpl; [constructor|].
  by apply insert_by_sorted.
Qed.

End Ordering.

Lemma Sorted_take {A : Type} (R : A → A → Prop) (n : nat) (l : list A) :
  Sorted R l → Sorted R (take n l).
Proof.
  revert n. induction l as [|x t IH]; intros [|n] Hs; simpl; try constructor.
  - apply IH. by apply Sorted_inv in Hs as [? _].
  - apply Sorted_inv in Hs as [_ Hhd].
    destruct t as [|y u], n as [|n]; simpl; constructor.
    by apply HdRel_inv in Hhd.
Qed.

Lemma is_true_sql_and a b : is_true (sql_and a b) = is_true a && is_true b.
Proof. by destruct a as [[]|], b as [[]|]. Qed.

Lemma is_true_sql_or a b : is_true (sql_or a b) = is_true a || is_true b.
Proof. by destruct a as [[]|], b as [[]|]. Qed.

Lemma is_true_Some (a : option bool) : is_true a = bool_decide (a = Some true).
Proof. by destruct a as [[]|]. Qed.

Lemma year_le_total (a b : option Z) : year_le a b = true ∨ year_le b a = true.
Proof.
  destruct a as [x|], b as [y|]; simpl; auto.
  destruct (decide (x ≤ y)%Z).
  - left. by apply bool_decide_eq_true_2.
  - right. apply bool_decide_eq_true_2. lia.
Qed.

Lemma chars_le_total (s t : str) : chars_le s t = true ∨ chars_le t s = true.
Proof.
  revert t. induction s as [|a s IH]; intros [|b t]; simpl; auto.
  destruct (decide (a = b)) as [->|Hne].
  - rewrite !bool_decide_eq_true_2 by done. apply IH.
  - rewrite !bool_decide_eq_false_2 by done.
    destruct (Nat.le_ge_cases (PyStr.code a) (PyStr.code b)); [left|right];
      by apply Nat.leb_le.
Qed.

(** ** The district summary *)

Lemma summary_condition (number : str) (lo hi : option Z) (r : finance_row) :
  is_true
    (sql_and (Some (bool_decide (fr_district_number r = number)))
       match lo, hi with
       | Some s, Some e => sql_and (sql_ge_int (fr_year r) s) (sql_le_int (fr_year r) e)
       | Some s, None => sql_ge_int (fr_year r) s
       | None, Some e => sql_le_int (fr_year r) e
       | None, None => Some true
       end)
  = summary_match number lo hi r.
Proof.
  unfold summary_match, year_in_range, sql_ge_int, sql_le_int.
  destruct (bool_decide (fr_district_number r = number)),
    lo as [s|], hi as [e|], (fr_year r) as [y|]; simpl; try done;
    repeat (destruct (bool_decide _)); done.
Qed.

Lemma summary_rows (db : database) (number : str) (lo hi : option Z) :
  order_by (λ x y, year_le (fr_year x) (fr_year y))
    (filter (λ r, is_true
                    (sql_and (Some (bool_decide (fr_district_number r = number)))
                       match lo, hi with
                       | Some s, Some e =>
                           sql_and (sql_ge_int (fr_year r) s) (sql_le_int (fr_year r) e)
                       | Some s, None => sql_ge_int (fr_year r) s
                       | None, Some e => sql_le_int (fr_year r) e
                       | None, None => Some true
                       end) = true)
       (v_finance_summary db))
  ≡ₚ filter (λ r, summary_match number lo hi r = true) (v_finance_summary db).
Proof.
  rewrite order_by_perm.
  erewrite list_filter_iff; [done|]. intros r. by rewrite summary_condition.
Qed.

(** X11: the district summary refuses a year outside 2008 to 2024;
    otherwise it answers 404 when no row of the view has the
    district number and a year in the range asked for, and else
    returns exactly those rows, each as many times as the view holds
    it, in ascending order of year with the rows without a year
    last. *)
Theorem get_district_summary_rows (db : database) (number : str)
    (start_year end_year : option Z) :
  match year_param start_year, year_param end_year with
  | Some lo, Some hi =>
      let wanted :=
        filter (λ r, summary_match number lo hi r = true) (v_finance_summary db) in
      match get_district_summary db number start_year end_year with
      | Rows rows =>
          rows ≠ [] ∧ rows ≡ₚ wanted
          ∧ Sorted (λ x y, year_le (fr_year x) (fr_year y) = true) rows
      | NotFound => wanted = []
      | Unprocessable => False
      end
  | _, _ => get_district_summary db number start_year end_year = Unprocessable
  end.
Proof.
  unfold get_district_summary.
  destruct (year_param start_year) as [lo|]; [|done].
  destruct (year_param end_year) as [hi|]; [|done].
  pose proof (summary_rows db number lo hi) as Hperm.
  pose proof (order_by_sorted (λ x y : finance_row, year_le (fr_year x) (fr_year y))
                (λ x y, year_le_total (fr_year x) (fr_year y))) as Hsorted.
  cbv zeta.
  destruct (order_by _ _) as [|r rows] eqn:E.
  - by apply Permutation_nil_l in Hperm.
  - split; [done|]. split; [done|]. rewrite <- E. apply Hsorted.
Qed.

(** X12: a range given backwards is not an error: the summary
    answers 404. *)
Theorem get_district_summary_inverted (db : database) (number : str) (s e : Z) :
  (2008 ≤ e ∧ e < s ∧ s ≤ 2024)%Z →
  get_district_summary db number (Some s) (Some e) = NotFound.
Proof.
  intros H. unfold get_district_summary, year_param, in_bounds.
  rewrite !bool_decide_eq_true_2 by lia. simpl.
  assert (filter (λ r, summary_match number (Some s) (Some e) r = true)
            (v_finance_summary db) = []) as Hnone.
  { induction (v_finance_summary db) as [|r t IH]; [done|].
    rewrite filter_cons_False; [exact IH|].
    unfold summary_match, year_in_range. simpl.
    destruct (fr_year r) as [y|]; simpl; [|by rewrite andb_false_r].
    destruct (decide (s ≤ y)%Z).
    - rewrite (bool_decide_eq_false_2 (y ≤ e)%Z) by lia.
      by rewrite !andb_false_r.
    - rewrite (bool_decide_eq_false_2 (s ≤ y)%Z) by done.
      by rewrite andb_false_r. }
  pose proof (summary_rows db number (Some s) (Some e)) as Hperm.
  rewrite Hnone in Hperm. apply Permutation_nil_r in Hperm.
  simpl in Hperm. by rewrite Hperm.
Qed.

Lemma get_district_summary_inverted_witness :
  (2008 ≤ 2010 ∧ 2010 < 2015 ∧ 2015 ≤ 2024)%Z
  ∧ get_district_summary crowded_db (py "057905") (Some 2015%Z) (Some 2010%Z) = NotFound.
Proof.
  split; [lia|].
  apply (get_district_summary_inverted crowded_db (py "057905") 2015 2010). lia.
Defined.

(** ** The listing endpoints *)

Lemma take_short {A : Type} (n : nat) (l : list A) :
  length (take n l) < n → take n l = l.
Proof. rewrite length_take. intros H. apply take_ge. lia. Qed.

Lemma anomaly_condition (year : option Z) (flag : option flag_type) (r : anomaly_row) :
  is_true (all_conditions (anomaly_conditions year flag) r) = anomaly_match year flag r.
Proof.
  unfold anomaly_match, anomaly_conditions, all_conditions, sql_eq_int.
  destruct year as [y|], flag as [t|]; simpl.
  - destruct (fr_year (ar_summary r)) as [v|], (flag_column t r) as [[]|]; simpl;
      repeat case_bool_decide; simplify_eq; done.
  - destruct (fr_year (ar_summary r)) as [v|]; simpl;
      repeat case_bool_decide; simplify_eq; done.
  - destruct (flag_column t r) as [[]|]; simpl;
      repeat case_bool_decide; simplify_eq; done.
  - unfold flagged. rewrite !is_true_sql_or, !is_true_Some. done.
Qed.

Section ListingFacts.
Variable ilike : str → str → bool.
Variable collate_le : str → str → bool.

(** X13: [GET /anomalies] refuses a year or a limit out of bounds;
    otherwise every row it returns is a row of the view that has
    the year and the flag asked for (or, when neither is asked for,
    at least one flag raised), and when it returns fewer rows than
    the limit it returns every such row. *)
Theorem get_anomalies_rows (db : database) (year : option Z)
    (flag : option flag_type) (limit : option Z) :
  match year_param year, limit_param limit with
  | Some y, Some n =>
      ∃ rows,
        get_anomalies collate_le db year flag limit = Rows rows
        ∧ (∀ r, r ∈ rows → r ∈ v_anomaly_flags db ∧ anomaly_match y flag r = true)
        ∧ ((Z.of_nat (length rows) < n)%Z →
           rows ≡ₚ filter (λ r, anomaly_match y flag r = true) (v_anomaly_flags db))
  | _, _ => get_anomalies collate_le db year flag limit = Unprocessable
  end.
Proof.
  unfold get_anomalies.
  destruct (year_param year) as [y|]; [|done].
  destruct (limit_param limit) as [n|] eqn:En; [|done].
  pose proof (limit_param_bounds _ _ En) as Hn.
  eexists. split; [done|].
  assert (order_by (anomaly_le collate_le)
            (filter (λ r, is_true (all_conditions (anomaly_conditions y flag) r) = true)
               (v_anomaly_flags db))
          ≡ₚ filter (λ r, anomaly_match y flag r = true) (v_anomaly_flags db)) as Hperm.
  { rewrite order_by_perm. erewrite list_filter_iff; [done|].
    intros r. by rewrite anomaly_condition. }
  unfold sql_limit. split.
  - intros r Hr%subseteq_take. rewrite Hperm in Hr.
    apply list_elem_of_filter in Hr as [? ?]. done.
  - intros Hlen. rewrite take_short by lia. exact Hperm.
Qed.

Lemma anomaly_le_total :
  (∀ s t, collate_le s t = true ∨ collate_le t s = true) →
  ∀ x y, anomaly_le collate_le x y = true ∨ anomaly_le collate_le y x = true.
Proof.
  intros Htotal x y. unfold anomaly_le.
  destruct (decide (fr_year (ar_summary x) = fr_year (ar_summary y))) as [E|E].
  - rewrite !bool_decide_eq_true_2 by done. apply Htotal.
  - rewrite !bool_decide_eq_false_2 by done.
    destruct (year_le_total (fr_year (ar_summary x)) (fr_year (ar_summary y))); auto.
Qed.

(** X14: with a collation that compares any two texts,
    [GET /anomalies] returns its rows in descending order of year
    (rows without a year first) and, within a year, in the order of
    the collation on the district name. *)
Theorem get_anomalies_sorted (db : database) (year : option Z)
    (flag : option flag_type) (limit : option Z) (rows : list anomaly_row) :
  (∀ s t, collate_le s t = true ∨ collate_le t s = true) →
  get_anomalies collate_le db year flag limit = Rows rows →
  Sorted (λ x y, anomaly_le collate_le x y = true) rows.
Proof.
  intros Htotal. unfold get_anomalies.
  destruct (year_param year) as [y|]; [|done].
  destruct (limit_param limit) as [n|]; [|done].
  intros [= <-]. apply Sorted_take, order_by_sorted. by apply anomaly_le_total.
Qed.

(** X15: [GET /districts] refuses a limit out of bounds; otherwise
    it returns pairs of district number and name that are pairwise
    distinct, each taken from a row of the view whose name matches
    the search; when it returns fewer pairs than the limit, it
    returns the pair of every such row.  An empty search text is no
    search. *)
Theorem list_districts_rows (db : database) (search : option str) (limit : option Z) :
  list_districts ilike collate_le db (Some []) limit
  = list_districts ilike collate_le db None limit
  ∧ match limit_param limit with
    | Some n =>
        ∃ rows,
          list_districts ilike collate_le db search limit = Rows rows
          ∧ NoDup rows
          ∧ (∀ p, p ∈ rows →
                  ∃ r, r ∈ v_finance_summary db ∧ search_match ilike search r
                       ∧ p = (fr_district_number r, fr_district_name r))
          ∧ ((Z.of_nat (length rows) < n)%Z →
             ∀ r, r ∈ v_finance_summary db → search_match ilike search r →
                  (fr_district_number r, fr_district_name r) ∈ rows)
    | None => list_districts ilike collate_le db search limit = Unprocessable
    end.
Proof.
  split; [done|]. unfold list_districts.
  destruct (limit_param limit) as [n|] eqn:En; [|done].
  pose proof (limit_param_bounds _ _ En) as Hn.
  set (selected :=
         match search with
         | Some (a :: t) =>
             filter (λ r, ilike (fr_district_name r) (percent :: (a :: t) ++ [percent]) = true)
               (v_finance_summary db)
         | _ => v_finance_summary db
         end).
  assert (∀ r, r ∈ selected ↔ r ∈ v_finance_summary db ∧ search_match ilike search r) as Hsel.
  { intros r. subst selected. unfold search_match.
    destruct search as [[|a t]|].
    - split; [by intros ?|by intros [? _]].
    - rewrite list_elem_of_filter. split; by intros [? ?].
    - split; [by intros ?|by intros [? _]]. }
  set (pairs := remove_dups (map (λ r, (fr_district_number r, fr_district_name r)) selected)).
  assert (∀ p, p ∈ pairs ↔ ∃ r, r ∈ selected ∧ p = (fr_district_number r, fr_district_name r))
    as Hpairs.
  { intros p. subst pairs. rewrite elem_of_remove_dups, list_elem_of_In, in_map_iff.
    split; intros (r & H1 & H2); exists r.
    - by rewrite list_elem_of_In.
    - by rewrite <- list_elem_of_In. }
  pose proof (order_by_perm (λ x y : str * str, collate_le x.2 y.2) pairs) as Hperm.
  eexists. split; [done|]. unfold sql_limit. split_and!.
  - eapply sublist_NoDup; [|apply sublist_take].
    rewrite Hperm. apply NoDup_remove_dups.
  - intros p Hp%subseteq_take. rewrite Hperm in Hp.
    apply Hpairs in Hp as (r & [Hr Hs]%Hsel & ->). by exists r.
  - intros Hlen r Hr Hs. rewrite take_short by lia. rewrite Hperm.
    apply Hpairs. exists r. split; [|done]. apply Hsel. done.
Qed.

End ListingFacts.

Lemma get_anomalies_sorted_witness :
  (∀ s t, chars_le s t = true ∨ chars_le t s = true)
  ∧ get_anomalies chars_le flagged_db None None None = Rows flagged_db_anomalies
  ∧ Sorted (λ x y, anomaly_le chars_le x y = true) flagged_db_anomalies.
Proof.
  assert (get_anomalies chars_le flagged_db None None None = Rows flagged_db_anomalies)
    as H by by vm_compute.
  split; [exact chars_le_total|]. split; [exact H|].
  exact (get_anomalies_sorted chars_le flagged_db None None None
           flagged_db_anomalies chars_le_total H).
Defined.

(** ** Placeholders and parameters *)

(** X17: in the query [get_anomalies] builds, the placeholders are
    [$1], [$2], ... in this order, one for each parameter it passes;
    the parameters are the year when given, then [True] when a flag
    is given, then the limit. *)
Theorem anomalies_query_placeholders (year : option Z) (flag : option flag_type)
    (limit : Z) :
  placeholders (anomalies_query year flag limit).1
  = seq 1 (length (anomalies_query year flag limit).2)
  ∧ (anomalies_query year flag limit).2
    = from_option (λ y, [SqlInt y]) [] year
      ++ from_option (λ _, [SqlBool true]) [] flag
      ++ [SqlInt limit].
Proof. destruct year as [y|], flag as [[]|]; split; by vm_compute. Qed.

(** X18: in the query [get_district_summary] builds, the
    placeholders are [$1], [$2], ... in this order, one for each
    parameter it passes; the parameters are the district number,
    then the years that are given. *)
Theorem summary_query_placeholders (number : str) (start_year end_year : option Z) :
  placeholders (summary_query number start_year end_year).1
  = seq 1 (length (summary_query number start_year end_year).2)
  ∧ (summary_query number start_year end_year).2
    = SqlText number
      :: from_option (λ s, [SqlInt s]) [] start_year
      ++ from_option (λ e, [SqlInt e]) [] end_year.
Proof. destruct start_year as [s|], end_year as [e|]; split; by vm_compute. Qed.

(** ** The district numbers of the prepared frame *)

Section PreparedDistrictNumbers.
Variable parse_number : cell → option number.

(** X19: when the canonical names of the header do not collide, the
    column [DISTRICT NUMBER] of the sheet comes out of [prepare_data]
    as the column [district_number], left as text, and holds the
    cleaned district numbers row by row (so the zeros the cleaning
    pads are not lost to a numeric conversion). *)
Theorem prepare_data_district_numbers (df : frame) (out : list typed_column) :
  NoDup (map to_snake_case (map col_name df)) →
  prepare_data parse_number df = Ok out →
  Forall2
    (λ c tc,
       col_name c = py "DISTRICT NUMBER" →
       typed_name tc = py "district_number"
       ∧ typed_data tc
         = Object (map (λ x, cell_of (clean_district_number x)) (col_data c)))
    df out.
Proof.
  intros Hnd Hout.
  destruct (has_column (py "DISTRICT NUMBER") df) eqn:Hdn;
    [|by rewrite (prepare_data_has_column parse_number df Hdn) in Hout].
  destruct (prepare_data_unfold parse_number df Hdn) as (m & Hm & Heq).
  rewrite Heq in Hout. apply traverse_Ok_inv in Hout.
  apply Forall2_same_length_lookup_2; [by eapply Forall2_length|].
  intros i c tc Hc Htc Hname.
  pose proof (Forall2_lookup_lr _ _ _ _ _ _ Hout Hc Htc) as Hconv. simpl in Hconv.
  assert (c ∈ df) as Hin by (apply list_elem_of_lookup; eauto).
  assert (renamed m (col_name c) = py "district_number") as Hren.
  { unfold renamed.
    rewrite (rename_loop_no_collision _ ∅ ∅ m Hnd (λ _ _, not_elem_of_empty _) Hm
               (col_name c) (col_name_elem df c Hin)).
    simpl. rewrite Hname. by vm_compute. }
  rewrite Hren in Hconv. unfold convert_column in Hconv. simpl in Hconv.
  injection Hconv as <-. simpl. split; [done|]. f_equal.
  unfold cleaned. by rewrite bool_decide_eq_true_2.
Qed.

End PreparedDistrictNumbers.

Lemma prepare_data_district_numbers_witness :
  NoDup (map to_snake_case (map col_name sheet_plain))
  ∧ prepare_data parse_integer sheet_plain = Ok sheet_plain_prepared
  ∧ Forall2
      (λ c tc,
         col_name c = py "DISTRICT NUMBER" →
         typed_name tc = py "district_number"
         ∧ typed_data tc
           = Object (map (λ x, cell_of (clean_district_number x)) (col_data c)))
      sheet_plain sheet_plain_prepared.
Proof.
  assert (NoDup (map to_snake_case (map col_name sheet_plain))) as Hnd.
  { apply (bool_decide_unpack _). vm_compute. exact I. }
  assert (prepare_data parse_integer sheet_plain = Ok sheet_plain_prepared) as H
    by by vm_compute.
  split; [exact Hnd|]. split; [exact H|].
  exact (prepare_data_district_numbers parse_integer sheet_plain
           sheet_plain_prepared Hnd H).
Defined.

(** ** Negative numbers *)

Section NegativeNumbers.
Import PyStr PyStrFacts.

(** X20: a negative integer is no district number to pad: it comes
    out of the cleaning as its decimal text, sign included, and that
    text is not numeric. *)
Theorem clean_district_number_negative (z : Z) :
  (z < 0)%Z →
  clean_district_number (CInt z) = Some (py (pretty z))
  ∧ isdigit (py (pretty z)) = false
  ∧ ∃ d, py (pretty z) = minus_char :: d ∧ isdigit d = true
         ∧ digits_value d = (- z)%Z.
Proof.
  intros Hz. destruct z as [|p|p]; [lia..|].
  destruct (pretty_N_digits (N.pos p)) as (d & Hd & Hdig & Hval & _).
  assert (py (pretty (Z.neg p)) = minus_char :: d) as Hp.
  { rewrite <- Hd. reflexivity. }
  assert (isdigit (minus_char :: d) = false) as Hnot by done.
  split_and!.
  - rewrite clean_district_number_eq. simpl. rewrite Hp.
    pose proof (isdigit_forallb _ Hdig) as Hall.
    rewrite strip_id; [|done|].
    + rewrite lstrip_id by done. by rewrite Hnot.
    + change (minus_char :: d) with ([minus_char] ++ d).
      rewrite ends_with_app by by apply isdigit_nonempty.
      apply digits_end; auto using digit_not_space.
  - by rewrite Hp.
  - exists d. split; [done|]. split; [done|]. rewrite Hval. lia.
Qed.

Lemma clean_district_number_negative_witness :
  (-5 < 0)%Z
  ∧ clean_district_number (CInt (-5)) = Some (py (pretty (-5)%Z))
  ∧ isdigit (py (pretty (-5)%Z)) = false
  ∧ ∃ d, py (pretty (-5)%Z) = minus_char :: d ∧ isdigit d = true
         ∧ digits_value d = (- -5)%Z.
Proof.
  split; [lia|]. apply (clean_district_number_negative (-5)). lia.
Defined.

End NegativeNumbers.
